(** * MoleculeML: the transfer-learning notebook [main.ipynb]

    A shallow embedding of the notebook's code cells.  The notebook is a
    straight-line Python program over five libraries (pandas, RDKit, Keras,
    scikit-learn, XGBoost).  What the notebook itself computes is embedded
    as Rocq functions that keep the notebook's names; what a library
    computes is either a member of an interface class (chemistry, file
    reading, regression fitting, one epoch of gradient descent) or a small
    model of the library call's documented behaviour; each such model says
    so.

    - Python exceptions: the error monad [result].
    - [np.ndarray] of [dtype=int]: [list Z]; a 2-D array: a list of rows.
    - [np.float64] scores: binary64 primitive floats ([PrimFloat]).
    - Keras tensors ([float32]): lists of real numbers, the arithmetic a
      network is designed in; rounding is not modelled. *)

From Stdlib Require Import String ZArith List Bool Lia Floats Reals Lra.
Import ListNotations.

Set Implicit Arguments.
Set Warnings "-inexact-float".

(** ** Python exceptions *)

Module Py.

Inductive exn : Type :=
| ArgumentError   (* Boost.Python: argument types did not match the C++ signature *)
| ValueError      (* a tensor of the wrong shape reached a Keras model *)
| LibraryError (origin : string).  (* any other failure inside a library *)

Inductive result (A : Type) : Type :=
| Ok (a : A)
| Raise (e : exn).

Arguments Ok {A} a.
Arguments Raise {A} e.

Definition bind {A B : Type} (m : result A) (k : A -> result B) : result B :=
  match m with
  | Ok a => k a
  | Raise e => Raise e
  end.

(** A list comprehension [[f(s) for s in xs]]: left to right, the first
    exception ends it. *)
Fixpoint comprehension {A B : Type} (f : A -> result B) (xs : list A)
  : result (list B) :=
  match xs with
  | [] => Ok []
  | x :: rest =>
      bind (f x) (fun y => bind (comprehension f rest) (fun ys => Ok (y :: ys)))
  end.

Definition raises {A : Type} (m : result A) : Prop := exists e, m = Raise e.

End Py.

Import Py.

Declare Scope py_scope.
Delimit Scope py_scope with py.
Notation "x <- m ;; k" := (bind m (fun x => k))
  (at level 61, m at next level, right associativity) : py_scope.
Open Scope py_scope.

(** ** Fingerprint encoder (cells [smiles_to_fp], [convert_smiles_to_fingerprints]) *)

(** RDKit's [ExplicitBitVect]: a number of bits and which of them are set. *)
Record ExplicitBitVect : Type := {
  GetNumBits : nat;
  GetBit : nat -> bool
}.

(** The length of the MACCS key vector, as the notebook documents it
    ("a set of 167 substructure key descriptors"). *)
Definition MACCS_KEYS : nat := 167.

(** [np.zeros((n,), dtype=int)]. *)
Definition np_zeros (n : nat) : list Z := repeat 0%Z n.

(** [DataStructs.ConvertToNumpyArray(bv, arr)] writes into [arr]: the array is
    resized to the bit vector's length and receives one 0/1 entry per bit,
    whatever it held.  The array after the call is returned. *)
Definition ConvertToNumpyArray (bv : ExplicitBitVect) (arr : list Z) : list Z :=
  map (fun i => if GetBit bv i then 1%Z else 0%Z) (seq 0 (GetNumBits bv)).

(** A Python int that fits a C [unsigned int]. *)
Definition fits_unsigned_int (n : nat) : bool := (Z.of_nat n <? 4294967296)%Z.

(** The radius and width [GetMorganFingerprintAsBitVect] accepts. *)
Definition morgan_arguments_accepted (radius nBits : nat) : bool :=
  fits_unsigned_int radius && fits_unsigned_int nBits && negb (Nat.eqb nBits 0).

(** RDKit's chemistry: molecules, the SMILES parser ([None] for a string that
    is no molecule), and which bit each of the two fingerprints sets. *)
Class RDKit : Type := {
  Mol : Type;
  MolFromSmiles : string -> option Mol;
  morgan_bit : Mol -> nat -> nat -> nat -> bool;  (* mol radius nBits i *)
  maccs_bit : Mol -> nat -> bool
}.

(** pandas: [pd.read_csv(file, ...)['smiles'].to_numpy()], the descriptor
    column of a dataset file, and [pd.read_csv(file, ...).to_numpy().squeeze(-1)],
    the label column. *)
Class Pandas : Type := {
  read_smiles : string -> result (list string);
  read_labels : string -> result (list float)
}.

Section Fingerprint.

Context {rdkit : RDKit} {pandas : Pandas}.

(** The two RDKit entry points take a molecule; handed Python's [None]
    (what the parser returned) the binding refuses the call.  The circular
    fingerprint also refuses a radius or a width that does not fit the
    [unsigned int] of its C++ signature, and a width of zero bits. *)
Definition GetMorganFingerprintAsBitVect (mol : option Mol) (radius nBits : nat)
  : result ExplicitBitVect :=
  match mol with
  | Some m =>
      if morgan_arguments_accepted radius nBits
      then Ok {| GetNumBits := nBits; GetBit := morgan_bit m radius nBits |}
      else Raise (LibraryError "GetMorganFingerprintAsBitVect")
  | None => Raise ArgumentError
  end.

Definition GenMACCSKeys (mol : option Mol) : result ExplicitBitVect :=
  match mol with
  | Some m => Ok {| GetNumBits := MACCS_KEYS; GetBit := maccs_bit m |}
  | None => Raise ArgumentError
  end.

Definition smiles_to_fp (smiles : string) (radius n_bits : nat) : result (list Z) :=
  let mol := MolFromSmiles smiles in
  ecfp <- GetMorganFingerprintAsBitVect mol radius n_bits ;;
  maccs <- GenMACCSKeys mol ;;
  let arr_ecfp := np_zeros 0 in
  let arr_maccs := np_zeros 0 in
  let arr_ecfp := ConvertToNumpyArray ecfp arr_ecfp in
  let arr_maccs := ConvertToNumpyArray maccs arr_maccs in
  let conjoint_fp := arr_ecfp ++ arr_maccs in
  Ok conjoint_fp.

(** The defaults of [smiles_to_fp(smiles, radius=2, n_bits=2000)]. *)
Definition default_radius : nat := 2.
Definition default_n_bits : nat := 2000.

Definition convert_smiles_to_fingerprints (smiles_array : list string)
  : result (list (list Z)) :=
  comprehension (fun s => smiles_to_fp s default_radius default_n_bits) smiles_array.

Definition load_and_preprocess_data (file_name : string) : result (list (list Z)) :=
  smiles <- read_smiles file_name ;;
  fingerprints <- convert_smiles_to_fingerprints smiles ;;
  Ok fingerprints.

(** What a fingerprint of molecule [m] holds: the circular (ECFP) bits at the
    indices below [n_bits], the MACCS keys in the [MACCS_KEYS] indices after. *)
Definition ecfp_then_maccs (m : Mol) (radius n_bits : nat) (fp : list Z) : Prop :=
  (forall i, i < n_bits ->
     nth_error fp i = Some (if morgan_bit m radius n_bits i then 1%Z else 0%Z))
  /\ (forall j, j < MACCS_KEYS ->
        nth_error fp (n_bits + j) = Some (if maccs_bit m j then 1%Z else 0%Z)).

End Fingerprint.

(** ** Keras layers and models (cells [create_encoder], [create_decoder],
       [create_predictor], [create_combined_model])

    A model is the list of layers the notebook stacks; the trainable and
    moving parameters live apart from it, one [LayerWeights] per layer
    position, so that one architecture can be looked at under any weights
    (freshly initialised or trained).  The layers compute what Keras
    documents for them, over the reals. *)

Module Keras.

Inductive Activation : Type := linear | softmax.

Inductive Layer : Type :=
| Dense (units : nat) (activation : Activation)
| BatchNormalization
| LeakyReLU (alpha : R)
| Dropout (rate : R).

Record Model : Type := {
  input_dim : nat;          (* Input(shape=(input_dim,)) *)
  layers : list Layer;
  name : string
}.

Record LayerWeights : Type := {
  kernel : nat -> nat -> R;          (* Dense: input index, unit *)
  bias : nat -> R;
  gamma : nat -> R;                  (* BatchNormalization *)
  beta : nat -> R;
  moving_mean : nat -> R;
  moving_variance : nat -> R
}.

Definition Weights : Type := nat -> LayerWeights.

(** [training=True] draws a dropout mask (layer, row, column: kept or not);
    [training=False], which is what [predict] runs, draws nothing. *)
Inductive Mode : Type :=
| Inference
| Training (mask : nat -> nat -> nat -> bool).

Definition rsum (xs : list R) : R := fold_right Rplus 0%R xs.

(** A list with its positions: [enumerate(xs)]. *)
Definition enumerate {A : Type} (xs : list A) : list (nat * A) :=
  combine (seq 0 (length xs)) xs.

Definition softmax_row (z : list R) : list R :=
  let e := map exp z in
  map (fun ei => (ei / rsum e)%R) e.

Definition activate (a : Activation) (z : list R) : list R :=
  match a with
  | linear => z
  | softmax => softmax_row z
  end.

Definition dense_row (units : nat) (a : Activation) (w : LayerWeights) (x : list R)
  : list R :=
  activate a
    (map (fun j => (rsum (map (fun ix => snd ix * kernel w (fst ix) j) (enumerate x))
                    + bias w j)%R)
         (seq 0 units)).

(** Keras' default [epsilon] of [BatchNormalization]. *)
Definition bn_epsilon : R := 0.001%R.

Definition batchnorm_row (w : LayerWeights) (mean variance : nat -> R) (x : list R)
  : list R :=
  map (fun jx => (gamma w (fst jx) * ((snd jx - mean (fst jx))
                                       / sqrt (variance (fst jx) + bn_epsilon))
                  + beta w (fst jx))%R)
      (enumerate x).

(** The statistics [BatchNormalization] normalises with while training: mean
    and variance of each column over the rows of the batch. *)
Definition batch_mean (batch : list (list R)) (j : nat) : R :=
  (rsum (map (fun x => nth j x 0%R) batch) / INR (length batch))%R.

Definition batch_variance (batch : list (list R)) (j : nat) : R :=
  (rsum (map (fun x => (nth j x 0 - batch_mean batch j) ^ 2) batch)
   / INR (length batch))%R.

Definition leaky_relu_row (alpha : R) (x : list R) : list R :=
  map (fun v => if Rlt_dec 0 v then v else (alpha * v)%R) x.

Definition dropout_row (rate : R) (keep : nat -> bool) (x : list R) : list R :=
  map (fun jx => if keep (fst jx) then (snd jx / (1 - rate))%R else 0%R) (enumerate x).

(** One layer applied to a batch (a list of rows), as Keras documents the
    layers: [Dense] is [activation(x . kernel + bias)]; [BatchNormalization]
    normalises with its moving statistics in inference and with the batch's
    own while training; [Dropout] is the identity in inference, and while
    training zeroes the entries the mask drops and scales the others by
    [1 / (1 - rate)]. *)
Definition layer_call (mode : Mode) (position : nat) (l : Layer) (w : LayerWeights)
    (batch : list (list R)) : list (list R) :=
  match l with
  | Dense units a => map (dense_row units a w) batch
  | BatchNormalization =>
      match mode with
      | Inference => map (batchnorm_row w (moving_mean w) (moving_variance w)) batch
      | Training _ => map (batchnorm_row w (batch_mean batch) (batch_variance batch)) batch
      end
  | LeakyReLU alpha => map (leaky_relu_row alpha) batch
  | Dropout rate =>
      match mode with
      | Inference => batch
      | Training mask =>
          map (fun rx => dropout_row rate (mask position (fst rx)) (snd rx)) (enumerate batch)
      end
  end.

Fixpoint call_layers (mode : Mode) (theta : Weights) (position : nat) (ls : list Layer)
    (batch : list (list R)) : list (list R) :=
  match ls with
  | [] => batch
  | l :: rest =>
      call_layers mode theta (S position) rest
        (layer_call mode position l (theta position) batch)
  end.

(** [model(batch, training=...)]: a batch whose rows are not [input_dim] wide
    is refused. *)
Definition call (mode : Mode) (m : Model) (theta : Weights) (batch : list (list R))
  : result (list (list R)) :=
  if forallb (fun x => Nat.eqb (length x) (input_dim m)) batch
  then Ok (call_layers mode theta 0 (layers m) batch)
  else Raise ValueError.

(** The rows of [x] in consecutive batches of [batch_size]. *)
Fixpoint batches_fuel {A : Type} (fuel batch_size : nat) (x : list A) : list (list A) :=
  match fuel, x with
  | S fuel', _ :: _ =>
      firstn batch_size x :: batches_fuel fuel' batch_size (skipn batch_size x)
  | _, _ => []
  end.

Definition batches {A : Type} (batch_size : nat) (x : list A) : list (list A) :=
  batches_fuel (length x) batch_size x.

(** The default [batch_size] of [Model.predict]. *)
Definition predict_batch_size : nat := 32.

(** Modelled from the spec: [Model.predict] (Keras' code, not the
    notebook's), the "inference mode only, no stochastic regularization
    active, order-preserving" extraction of section 4.3.  As Keras documents
    it: the rows are run through the model with [training=False], batch by
    batch, and the outputs are concatenated; an input with no rows is an
    error. *)
Definition predict (m : Model) (theta : Weights) (x : list (list R))
  : result (list (list R)) :=
  match x with
  | [] => Raise ValueError
  | _ =>
      outs <- comprehension (call Inference m theta) (batches predict_batch_size x) ;;
      Ok (concat outs)
  end.

(** What inference computes on one row, layer by layer. *)
Definition layer_infer_row (l : Layer) (w : LayerWeights) (x : list R) : list R :=
  match l with
  | Dense units a => dense_row units a w x
  | BatchNormalization => batchnorm_row w (moving_mean w) (moving_variance w) x
  | LeakyReLU alpha => leaky_relu_row alpha x
  | Dropout _ => x
  end.

Fixpoint infer_row (theta : Weights) (position : nat) (ls : list Layer) (x : list R)
  : list R :=
  match ls with
  | [] => x
  | l :: rest => infer_row theta (S position) rest (layer_infer_row l (theta position) x)
  end.

(** A batch all of whose rows are [d] wide. *)
Definition rows_of_width (d : nat) (batch : list (list R)) : Prop :=
  Forall (fun x => length x = d) batch.

(** A probability vector: no negative entry, and the entries sum to 1. *)
Definition probability_vector (y : list R) : Prop :=
  Forall (fun v => (0 <= v)%R) y /\ rsum y = 1%R.

(** The width of what a stack of layers puts out, given the width it takes in:
    Keras' shape inference. *)
Definition layer_output_dim (l : Layer) (d : nat) : nat :=
  match l with
  | Dense units _ => units
  | _ => d
  end.

Definition output_dim (m : Model) : nat :=
  fold_left (fun d l => layer_output_dim l d) (layers m) (input_dim m).

End Keras.

Import Keras.

(** The defaults of the notebook's model constructors: [input_dim=2167]. *)
Definition default_input_dim : nat := 2167.

Definition create_encoder (input_dim : nat) : Model :=
  {| input_dim := input_dim;
     layers := [ Dense 2167 linear;
                 BatchNormalization;
                 LeakyReLU 0.01;
                 Dropout 0.5;
                 Dense 2500 linear;
                 BatchNormalization;
                 LeakyReLU 0.01;
                 Dropout 0.5;
                 Dense 2167 linear ];
     name := "encoder" |}.

Definition create_decoder (input_dim : nat) : Model :=
  {| input_dim := input_dim;
     layers := [ Dense 2000 linear;
                 BatchNormalization;
                 LeakyReLU 0.01;
                 Dropout 0.5;
                 Dense 2167 softmax ];
     name := "decoder" |}.

Definition create_predictor (input_dim : nat) : Model :=
  {| input_dim := input_dim;
     layers := [ Dense 256 linear;
                 BatchNormalization;
                 LeakyReLU 0.01;
                 Dropout 0.5;
                 Dense 1 linear ];
     name := "predictor" |}.

(** The combined model: [inputs -> encoder -> (decoder, predictor)].  The three
    parts are built with their own default [input_dim], whatever the combined
    model's is. *)
Record CombinedModel : Type := {
  combined_input_dim : nat;
  encoder_part : Model;
  decoder_part : Model;
  predictor_part : Model
}.

Record CombinedWeights : Type := {
  encoder_weights : Weights;
  decoder_weights : Weights;
  predictor_weights : Weights
}.

(** [encoder(inputs)] checks the symbolic input against the encoder's own
    input shape while the graph is built: an [input_dim] other than the
    encoder's is a ValueError.  The encoder's output is as wide as the
    decoder's and the predictor's input, so [decoder(encoded)] and
    [predictor(encoded)] pass. *)
Definition create_combined_model (input_dim : nat) : result (CombinedModel * Model) :=
  let encoder := create_encoder default_input_dim in
  let decoder := create_decoder default_input_dim in
  let predictor := create_predictor default_input_dim in
  if Nat.eqb input_dim (Keras.input_dim encoder)
  then Ok ({| combined_input_dim := input_dim;
              encoder_part := encoder;
              decoder_part := decoder;
              predictor_part := predictor |},
           encoder)
  else Raise ValueError.

(** Cell [model, encoder = create_combined_model()]: with the default
    [input_dim] the call returns this pair ([model_and_encoder_created]). *)
Definition encoder : Model := create_encoder default_input_dim.

Definition model : CombinedModel :=
  {| combined_input_dim := default_input_dim;
     encoder_part := encoder;
     decoder_part := create_decoder default_input_dim;
     predictor_part := create_predictor default_input_dim |}.

(** [model(inputs)] of the combined model: the reconstruction and the
    auxiliary prediction of each row. *)
Definition call_combined (mode : Mode) (m : CombinedModel) (w : CombinedWeights)
    (inputs : list (list R)) : result (list (list R) * list (list R)) :=
  if forallb (fun x => Nat.eqb (length x) (combined_input_dim m)) inputs
  then
    encoded <- call mode (encoder_part m) (encoder_weights w) inputs ;;
    decoded <- call mode (decoder_part m) (decoder_weights w) encoded ;;
    predicted <- call mode (predictor_part m) (predictor_weights w) encoded ;;
    Ok (decoded, predicted)
  else Raise ValueError.

(** ** Training the combined model (cells "Callbacks" and "Fit")

    [model.fit(..., epochs=100, callbacks=[early_stopping, reduce_lr,
    model_checkpoint])].  The three callbacks all monitor
    [val_predictor_rmse], lower being better. *)

Record EarlyStopping : Type := {
  es_patience : nat;
  restore_best_weights : bool
}.

Record ReduceLROnPlateau : Type := {
  rlr_factor : float;
  rlr_patience : nat;
  rlr_min_delta : float;     (* Keras' default, 1e-4 *)
  rlr_min_lr : float         (* Keras' default, 0 *)
}.

Record ModelCheckpoint : Type := {
  filepath : string;
  save_best_only : bool;
  save_weights_only : bool
}.

Definition early_stopping : EarlyStopping :=
  {| es_patience := 20; restore_best_weights := true |}.

Definition reduce_lr : ReduceLROnPlateau :=
  {| rlr_factor := 0.1%float; rlr_patience := 5;
     rlr_min_delta := 0.0001%float; rlr_min_lr := 0%float |}.

Definition model_checkpoint : ModelCheckpoint :=
  {| filepath := "best_model.h5"; save_best_only := true; save_weights_only := true |}.

(** [epochs=100] of [model.fit]; the step size [SGD(momentum=0.6)] starts from. *)
Definition epochs : nat := 100.
Definition initial_learning_rate : float := 0.01%float.

Section Fit.

(** The weights of the combined model, the optimizer's slots (momentum), one
    epoch of mini-batch gradient descent at a given step size, and the
    monitored metric, [val_predictor_rmse], of given weights on the
    validation split. *)
Variable W : Type.
Variable Slots : Type.
Variable train_epoch : W -> Slots -> float -> W * Slots.
Variable val_predictor_rmse : W -> float.

Record EarlyStoppingState : Type := {
  es_wait : nat;
  es_best : float;
  best_weights : option W;
  best_epoch : nat;
  stopped_epoch : nat
}.

Record ReduceLRState : Type := {
  rlr_wait : nat;
  rlr_best : float
}.

Record CheckpointState : Type := {
  mc_best : float;
  saved : option W           (* the contents of [filepath], once written *)
}.

Record FitState : Type := {
  weights : W;
  optimizer : Slots;
  learning_rate : float;
  stop_training : bool;
  es : EarlyStoppingState;
  rlr : ReduceLRState;
  mc : CheckpointState;
  history : list float;      (* val_predictor_rmse, epoch by epoch *)
  snapshots : list W         (* the weights each epoch ended with *)
}.

Definition on_train_begin (w0 : W) (o0 : Slots) : FitState :=
  {| weights := w0;
     optimizer := o0;
     learning_rate := initial_learning_rate;
     stop_training := false;
     es := {| es_wait := 0; es_best := infinity; best_weights := None;
              best_epoch := 0; stopped_epoch := 0 |};
     rlr := {| rlr_wait := 0; rlr_best := infinity |};
     mc := {| mc_best := infinity; saved := None |};
     history := [];
     snapshots := [] |}.

(** Modelled from the spec: the stopping policy of section 4.2 (the code of
    the EarlyStopping callback is in Keras, not in the notebook).  "No
    improvement" is a monitored value not strictly below the best one seen
    (the best starts at infinity); the snapshot of the best-observed epoch is
    kept (the first epoch's, as long as no epoch has improved), and after
    [es_patience] epochs in a row without improvement, never at the very
    first epoch, training is told to stop and the snapshot is put back.
    Returns the callback's state, the model's weights and the model's
    [stop_training] flag. *)
Definition early_stopping_on_epoch_end (cb : EarlyStopping) (epoch : nat)
    (current : float) (w : W) (st : EarlyStoppingState)
  : EarlyStoppingState * W * bool :=
  let held :=
    match best_weights st with
    | None => if restore_best_weights cb then Some w else None
    | Some b => Some b
    end in
  let epoch_held :=
    match best_weights st with
    | None => if restore_best_weights cb then epoch else best_epoch st
    | Some _ => best_epoch st
    end in
  let wait := S (es_wait st) in
  if (current <? es_best st)%float then
    ({| es_wait := 0; es_best := current;
        best_weights := if restore_best_weights cb then Some w else held;
        best_epoch := epoch; stopped_epoch := stopped_epoch st |},
     w, false)
  else if (es_patience cb <=? wait) && (0 <? epoch) then
    ({| es_wait := wait; es_best := es_best st; best_weights := held;
        best_epoch := epoch_held; stopped_epoch := epoch |},
     match held with
     | Some b => if restore_best_weights cb then b else w
     | None => w
     end,
     true)
  else
    ({| es_wait := wait; es_best := es_best st; best_weights := held;
        best_epoch := epoch_held; stopped_epoch := stopped_epoch st |},
     w, false).

(** Modelled from the spec: "if no improvement for P1 consecutive epochs,
    reduce the optimizer's step size by a fixed factor" (Keras'
    ReduceLROnPlateau, with its default threshold and floor). *)
Definition reduce_lr_on_epoch_end (cb : ReduceLROnPlateau) (current lr : float)
    (st : ReduceLRState) : ReduceLRState * float :=
  if (current <? rlr_best st - rlr_min_delta cb)%float then
    ({| rlr_wait := 0; rlr_best := current |}, lr)
  else
    let wait := S (rlr_wait st) in
    if rlr_patience cb <=? wait then
      if (rlr_min_lr cb <? lr)%float then
        let scaled := (lr * rlr_factor cb)%float in
        ({| rlr_wait := 0; rlr_best := rlr_best st |},
         if (scaled <? rlr_min_lr cb)%float then rlr_min_lr cb else scaled)
      else ({| rlr_wait := wait; rlr_best := rlr_best st |}, lr)
    else ({| rlr_wait := wait; rlr_best := rlr_best st |}, lr).

(** Modelled from the spec: "checkpoint the best-observed weight snapshot
    continuously" (Keras' ModelCheckpoint with [save_best_only]). *)
Definition model_checkpoint_on_epoch_end (cb : ModelCheckpoint) (current : float)
    (w : W) (st : CheckpointState) : CheckpointState :=
  if save_best_only cb then
    if (current <? mc_best st)%float
    then {| mc_best := current; saved := Some w |}
    else st
  else {| mc_best := mc_best st; saved := Some w |}.

(** One epoch: train, validate, then the callbacks in the order of the list
    [callbacks = [early_stopping, reduce_lr, model_checkpoint]]. *)
Definition run_epoch (epoch : nat) (s : FitState) : FitState :=
  let '(w, o) := train_epoch (weights s) (optimizer s) (learning_rate s) in
  let current := val_predictor_rmse w in
  let '(es', w', stop) := early_stopping_on_epoch_end early_stopping epoch current w (es s) in
  let '(rlr', lr') := reduce_lr_on_epoch_end reduce_lr current (learning_rate s) (rlr s) in
  let mc' := model_checkpoint_on_epoch_end model_checkpoint current w' (mc s) in
  {| weights := w';
     optimizer := o;
     learning_rate := lr';
     stop_training := stop;
     es := es';
     rlr := rlr';
     mc := mc';
     history := history s ++ [current];
     snapshots := snapshots s ++ [w] |}.

Fixpoint fit_loop (remaining epoch : nat) (s : FitState) : FitState :=
  match remaining with
  | 0 => s
  | S remaining' =>
      let s' := run_epoch epoch s in
      if stop_training s' then s' else fit_loop remaining' (S epoch) s'
  end.

Definition fit (w0 : W) (o0 : Slots) : FitState :=
  fit_loop epochs 0 (on_train_begin w0 o0).

(** What holds of the state after [n] epochs: one history entry and one
    snapshot per epoch; no value observed is strictly below the best value
    recorded; the snapshot early stopping holds is the one of [best_epoch],
    [es_wait] epochs or more back, and its monitored value is the best value
    recorded (or nothing has been recorded yet, the first epoch's value not
    being below infinity); and once training is told to stop, the patience
    has run out and the model's weights are that snapshot. *)
Definition fit_invariant (n : nat) (s : FitState) : Prop :=
  length (snapshots s) = n
  /\ history s = map val_predictor_rmse (snapshots s)
  /\ (forall v, In v (history s) -> (v <? es_best (es s))%float = false)
  /\ match best_weights (es s) with
     | None => n = 0 /\ es_best (es s) = infinity /\ es_wait (es s) = 0
     | Some wb =>
         nth_error (snapshots s) (best_epoch (es s)) = Some wb
         /\ best_epoch (es s) + es_wait (es s) <= n
         /\ (val_predictor_rmse wb = es_best (es s)
             \/ ((val_predictor_rmse wb <? infinity)%float = false
                 /\ es_best (es s) = infinity))
     end
  /\ (stop_training s = true ->
      best_weights (es s) = Some (weights s)
      /\ stopped_epoch (es s) = n - 1
      /\ es_patience early_stopping <= es_wait (es s)).

End Fit.

(** ** Regression on the extracted features (cells "Extract features" to
       "Predict") *)

(** A fitted scikit-learn or XGBoost estimator: its [.predict]. *)
Record Regressor : Type := {
  regressor_predict : list (list R) -> result (list float)
}.

(** scikit-learn and XGBoost, as far as the notebook calls them. *)
Class Estimators : Type := {
  (* train_test_split(X, y, test_size=..., random_state=...): x, x_val, y, y_val *)
  train_test_split :
    list (list R) -> list float -> float -> nat ->
    result (list (list R) * list (list R) * list float * list float);
  (* LinearRegression().fit(x, y) *)
  LinearRegression_fit : list (list R) -> list float -> result Regressor;
  (* XGBRegressor(tree_method=...).fit(x, y) *)
  XGBRegressor_fit : string -> list (list R) -> list float -> result Regressor;
  (* sklearn.metrics.mean_squared_error(y_true, y_pred) *)
  mean_squared_error : list float -> list float -> result float
}.

(** Keras' training of the combined model, as far as [model.fit] needs it:
    fresh weights and optimizer slots, one epoch of SGD on the pretraining
    arrays (the last [validation_split] of the rows held out), and the
    monitored validation metric. *)
Class Optimiser : Type := {
  OptimizerSlots : Type;
  initial_weights : CombinedModel -> CombinedWeights;
  initial_slots : OptimizerSlots;
  sgd_epoch :
    CombinedModel -> list (list R) -> list float -> float ->
    CombinedWeights -> OptimizerSlots -> float -> CombinedWeights * OptimizerSlots;
  evaluate_val_predictor_rmse :
    CombinedModel -> list (list R) -> list float -> float -> CombinedWeights -> float
}.

(** [np.ndarray] of ints handed to Keras: the same numbers as float tensors. *)
Definition as_tensor (fingerprints : list (list Z)) : list (list R) :=
  map (map IZR) fingerprints.

Section Regression.

Context {estimators : Estimators}.

Definition rmse (x1 x2 : list float) : result float :=
  mse <- mean_squared_error x1 x2 ;;
  Ok (PrimFloat.sqrt mse).

(** Cell "Select best": the model kept and the line printed. *)
Definition select_best_model {M : Type} (lr xgb : M) (lr_rmse xgb_rmse : float)
  : M * string :=
  if (lr_rmse <? xgb_rmse)%float
  then (lr, "Linear Regression model selected"%string)
  else (xgb, "XGBoost model selected"%string).

(** Cell "Predict": features of the test fingerprints, then the kept model. *)
Definition predict_test (encoder : Model) (theta : Weights) (best_model : Regressor)
    (test_x_conjoint : list (list Z)) : result (list float) :=
  encoded_test_x <- predict encoder theta (as_tensor test_x_conjoint) ;;
  predictions <- regressor_predict best_model encoded_test_x ;;
  Ok predictions.

End Regression.

(** ** The notebook, cell after cell *)

Record Results : Type := {
  lr_rmse : float;
  xgb_rmse : float;
  printed : string;            (* which model the selection cell announced *)
  predictions : list float     (* the column [y] of results.csv *)
}.

Section Notebook.

Context {rdkit : RDKit} {pandas : Pandas} {estimators : Estimators}
        {optimiser : Optimiser}.

(** Fingerprints of the descriptors of the test set, then the predictions of
    a chosen regressor on their features: the path an unseen molecule takes. *)
Definition inference (encoder : Model) (theta : Weights) (best_model : Regressor)
    (test_x : list string) : result (list float) :=
  test_x_conjoint <- convert_smiles_to_fingerprints test_x ;;
  predict_test encoder theta best_model test_x_conjoint.

Definition notebook : result Results :=
  (* Load and preprocess pretraining, training and test data *)
  pretrain_x_conjoint <- load_and_preprocess_data "pretrain_features.csv.zip" ;;
  pretrain_y <- read_labels "pretrain_labels.csv.zip" ;;
  train_x_conjoint <- load_and_preprocess_data "train_features.csv.zip" ;;
  train_y <- read_labels "train_labels.csv.zip" ;;
  test_x <- read_smiles "test_features.csv.zip" ;;
  test_x_conjoint <- convert_smiles_to_fingerprints test_x ;;
  (* Create combined model and encoder: [model], [encoder] above *)
  (* Fit the model *)
  let trained :=
    fit (sgd_epoch model (as_tensor pretrain_x_conjoint) pretrain_y 0.1%float)
        (evaluate_val_predictor_rmse model (as_tensor pretrain_x_conjoint) pretrain_y
           0.1%float)
        (initial_weights model) initial_slots in
  (* [encoder] is the combined model's own encoder: it has the weights
     training left the combined model with *)
  let theta := encoder_weights (weights trained) in
  (* Extract features from training data using the encoder *)
  encoded_train_x <- predict encoder theta (as_tensor train_x_conjoint) ;;
  (* Split validation data *)
  split <- train_test_split encoded_train_x train_y 0.1%float 42 ;;
  let '(x, x_val, y, y_val) := split in
  (* Fit regressors *)
  lr <- LinearRegression_fit x y ;;
  xgb <- XGBRegressor_fit "gpu_hist" x y ;;
  (* Test models *)
  lr_val <- regressor_predict lr x_val ;;
  lr_rmse <- rmse y_val lr_val ;;
  xgb_val <- regressor_predict xgb x_val ;;
  xgb_rmse <- rmse y_val xgb_val ;;
  (* Select the best model *)
  let '(best_model, line) := select_best_model lr xgb lr_rmse xgb_rmse in
  (* Make predictions using the best model *)
  predictions <- predict_test encoder theta best_model test_x_conjoint ;;
  Ok {| lr_rmse := lr_rmse; xgb_rmse := xgb_rmse; printed := line;
        predictions := predictions |}.

End Notebook.

(** The weights [model.fit] leaves the combined model with, given the
    pretraining arrays (cell "Fit", as [notebook] runs it). *)
Definition trained_weights {optimiser : Optimiser} (pretrain_x_conjoint : list (list Z))
    (pretrain_y : list float) : CombinedWeights :=
  weights
    (fit (sgd_epoch model (as_tensor pretrain_x_conjoint) pretrain_y 0.1%float)
         (evaluate_val_predictor_rmse model (as_tensor pretrain_x_conjoint) pretrain_y
            0.1%float)
         (initial_weights model) initial_slots).

(** ** Sample inputs

    A toy chemistry and toy files, to run the definitions on. *)

Definition sample_rdkit : RDKit :=
  {| Mol := string;
     MolFromSmiles := fun s =>
       if (String.eqb s "CCO" || String.eqb s "c1ccccc1")%bool then Some s else None;
     morgan_bit := fun m radius n_bits i => Nat.eqb (i mod 7) (String.length m);
     maccs_bit := fun m j => Nat.even j |}.

Definition sample_pandas : Pandas :=
  {| read_smiles := fun file => Ok ["CCO"; "C1CC"; "c1ccccc1"]%string;
     read_labels := fun file => Ok [1.5; 2.5; 0.5]%float |}.

Definition sample_estimators : Estimators :=
  {| train_test_split := fun x y test_size random_state => Ok (x, x, y, y);
     LinearRegression_fit := fun x y =>
       Ok {| regressor_predict := fun rows => Ok (map (fun _ => 0.5%float) rows) |};
     XGBRegressor_fit := fun tree_method x y =>
       Ok {| regressor_predict := fun rows => Ok (map (fun _ => 1.5%float) rows) |};
     mean_squared_error := fun y_true y_pred => Ok 0.25%float |}.

Definition zero_weights : Weights :=
  fun _ => {| kernel := fun _ _ => 0%R; bias := fun _ => 0%R;
              gamma := fun _ => 1%R; beta := fun _ => 0%R;
              moving_mean := fun _ => 0%R; moving_variance := fun _ => 1%R |}.

Definition zero_combined_weights : CombinedWeights :=
  {| encoder_weights := zero_weights; decoder_weights := zero_weights;
     predictor_weights := zero_weights |}.

Definition zero_fingerprint : list R := repeat 0%R 2167.

Definition sample_optimiser : Optimiser :=
  {| OptimizerSlots := unit;
     initial_weights := fun _ => zero_combined_weights;
     initial_slots := tt;
     sgd_epoch := fun _ _ _ _ w slots lr => (w, slots);
     evaluate_val_predictor_rmse := fun _ _ _ _ w => 1%float |}.

(** A training run to try the stopping policy on: the weights are the number
    of epochs trained, and the monitored error falls for three epochs, then
    stays above its best. *)
Definition sample_train_epoch (w : nat) (slots : unit) (lr : float) : nat * unit :=
  (S w, slots).

Definition sample_val_predictor_rmse (w : nat) : float :=
  nth w [9; 5; 4; 3; 3.5; 3.25]%float 3.125%float.

(** A run that diverges: the first epoch's error is 2, every later one is
    not a number. *)
Definition diverging_val_predictor_rmse (w : nat) : float :=
  if Nat.eqb w 1 then 2%float else nan.

Definition sample_fit : FitState nat unit :=
  fit sample_train_epoch sample_val_predictor_rmse 0 tt.

(** Files in which every descriptor parses. *)
Definition clean_pandas : Pandas :=
  {| read_smiles := fun file => Ok ["CCO"; "c1ccccc1"]%string;
     read_labels := fun file => Ok [1.5; 2.5]%float |}.

(** Two fitted models to select between. *)
Inductive Candidate : Type := lr_model | xgb_model.

(** ** Proof automation *)

(** Splits a hypothesis [x <- m ;; k = Ok r] into [m = Ok x] and [k = Ok r]. *)
Ltac bind_ok H x Hx :=
  match type of H with
  | bind ?m _ = Ok _ =>
      let e := fresh "e" in
      destruct m as [x|e] eqn:Hx; cbn [bind] in H; [|discriminate H]
  end.

(** * Properties *)

(** ** The error monad *)

Lemma comprehension_ok_Forall2 {A B : Type} (f : A -> result B) (xs : list A) (ys : list B) :
  comprehension f xs = Ok ys -> Forall2 (fun x y => f x = Ok y) xs ys.
Proof.
  revert ys; induction xs as [|x xs IH]; intros ys H; cbn in H.
  - injection H as <-. constructor.
  - destruct (f x) as [y|e] eqn:Hx; cbn in H; [|discriminate].
    destruct (comprehension f xs) as [ys'|e] eqn:Hxs; cbn in H; [|discriminate].
    injection H as <-. constructor; auto.
Qed.

Lemma comprehension_raises {A B : Type} (f : A -> result B) (xs : list A) (x : A) :
  In x xs -> raises (f x) -> raises (comprehension f xs).
Proof.
  induction xs as [|a xs IH]; intros Hin [e He]; [contradiction|].
  cbn. destruct Hin as [->|Hin].
  - rewrite He. exists e. reflexivity.
  - destruct (f a) as [y|e']; cbn; [|eexists; reflexivity].
    destruct (IH Hin (ex_intro _ e He)) as [e' ->]. cbn. eexists; reflexivity.
Qed.

Lemma comprehension_total {A B : Type} (f : A -> result B) (g : A -> B) (xs : list A) :
  (forall x, In x xs -> f x = Ok (g x)) -> comprehension f xs = Ok (map g xs).
Proof.
  induction xs as [|a xs IH]; intros H; cbn; [reflexivity|].
  rewrite (H a (or_introl eq_refl)). cbn.
  rewrite IH by (intros; apply H; right; assumption). reflexivity.
Qed.

Lemma raises_not_ok {A : Type} (m : result A) : raises m -> forall a, m <> Ok a.
Proof. intros [e ->] a. discriminate. Qed.

Lemma bind_raises {A B : Type} (m : result A) (k : A -> result B) :
  raises m -> raises (bind m k).
Proof. intros [e ->]. exists e. reflexivity. Qed.

(** ** Fingerprint encoder *)

Section FingerprintFacts.

Context {rdkit : RDKit} {pandas : Pandas}.

Lemma ConvertToNumpyArray_length (bv : ExplicitBitVect) (arr : list Z) :
  length (ConvertToNumpyArray bv arr) = GetNumBits bv.
Proof. unfold ConvertToNumpyArray. now rewrite length_map, length_seq. Qed.

Lemma ConvertToNumpyArray_nth (bv : ExplicitBitVect) (arr : list Z) (i : nat) :
  i < GetNumBits bv ->
  nth_error (ConvertToNumpyArray bv arr) i = Some (if GetBit bv i then 1%Z else 0%Z).
Proof.
  intros Hi. unfold ConvertToNumpyArray.
  rewrite nth_error_map, nth_error_seq.
  destruct (Nat.ltb_spec i (GetNumBits bv)); [reflexivity | lia].
Qed.

Lemma default_arguments_accepted :
  morgan_arguments_accepted default_radius default_n_bits = true.
Proof. reflexivity. Qed.

(** What [smiles_to_fp] returns on a descriptor that parses, for a radius and
    a width RDKit accepts. *)
Lemma smiles_to_fp_parsed (smiles : string) (m : Mol) (radius n_bits : nat) :
  MolFromSmiles smiles = Some m ->
  morgan_arguments_accepted radius n_bits = true ->
  smiles_to_fp smiles radius n_bits =
  Ok (ConvertToNumpyArray
        {| GetNumBits := n_bits; GetBit := morgan_bit m radius n_bits |} (np_zeros 0)
      ++ ConvertToNumpyArray
           {| GetNumBits := MACCS_KEYS; GetBit := maccs_bit m |} (np_zeros 0)).
Proof.
  intros H Hacc. unfold smiles_to_fp, GetMorganFingerprintAsBitVect.
  rewrite H, Hacc. reflexivity.
Qed.

(** ... and on one that does not. *)
Lemma smiles_to_fp_unparsed (smiles : string) (radius n_bits : nat) :
  MolFromSmiles smiles = None ->
  smiles_to_fp smiles radius n_bits = Raise ArgumentError.
Proof. intros H. unfold smiles_to_fp. rewrite H. reflexivity. Qed.

Lemma smiles_to_fp_ok_inv (smiles : string) (radius n_bits : nat) (fp : list Z) :
  smiles_to_fp smiles radius n_bits = Ok fp ->
  exists m, MolFromSmiles smiles = Some m.
Proof.
  intros H. destruct (MolFromSmiles smiles) as [m|] eqn:Hm; [eauto|].
  rewrite (smiles_to_fp_unparsed _ _ _ Hm) in H. discriminate.
Qed.

(** Every vector [smiles_to_fp] returns is the two bit arrays of a molecule,
    the circular one first. *)
Lemma smiles_to_fp_ok_shape (smiles : string) (radius n_bits : nat) (fp : list Z) :
  smiles_to_fp smiles radius n_bits = Ok fp ->
  exists m,
    MolFromSmiles smiles = Some m
    /\ fp = ConvertToNumpyArray
              {| GetNumBits := n_bits; GetBit := morgan_bit m radius n_bits |} (np_zeros 0)
            ++ ConvertToNumpyArray
                 {| GetNumBits := MACCS_KEYS; GetBit := maccs_bit m |} (np_zeros 0).
Proof.
  intros H. destruct (smiles_to_fp_ok_inv _ _ _ H) as [m Hm]. exists m.
  split; [exact Hm|].
  unfold smiles_to_fp, GetMorganFingerprintAsBitVect in H. rewrite Hm in H.
  destruct (morgan_arguments_accepted radius n_bits); cbn [bind] in H; [|discriminate].
  cbn in H. injection H as <-. reflexivity.
Qed.

Lemma smiles_to_fp_length (smiles : string) (radius n_bits : nat) (fp : list Z) :
  smiles_to_fp smiles radius n_bits = Ok fp -> length fp = n_bits + MACCS_KEYS.
Proof.
  intros H. destruct (smiles_to_fp_ok_shape _ _ _ H) as (m & _ & ->).
  now rewrite length_app, !ConvertToNumpyArray_length.
Qed.

(** C5: every fingerprint [smiles_to_fp] returns has exactly
    [n_bits + MACCS_KEYS] entries, whatever the molecule; a descriptor that
    parses is encoded for every radius and width RDKit accepts, and with the
    notebook's defaults into 2000 + 167 = 2167 entries. *)
Theorem fingerprint_length (smiles : string) :
  (forall radius n_bits fp,
      smiles_to_fp smiles radius n_bits = Ok fp -> length fp = n_bits + MACCS_KEYS)
  /\ (forall m, MolFromSmiles smiles = Some m ->
        (forall radius n_bits,
            morgan_arguments_accepted radius n_bits = true ->
            exists fp, smiles_to_fp smiles radius n_bits = Ok fp
                       /\ length fp = n_bits + MACCS_KEYS)
        /\ (exists fp, smiles_to_fp smiles default_radius default_n_bits = Ok fp
                       /\ length fp = 2167)).
Proof.
  split; [intros radius n_bits fp; apply smiles_to_fp_length|].
  intros m Hm.
  assert (Hgen : forall radius n_bits,
             morgan_arguments_accepted radius n_bits = true ->
             exists fp, smiles_to_fp smiles radius n_bits = Ok fp
                        /\ length fp = n_bits + MACCS_KEYS).
  { intros radius n_bits Hacc. eexists.
    split; [apply (smiles_to_fp_parsed _ _ _ Hm Hacc)|].
    rewrite length_app, !ConvertToNumpyArray_length. reflexivity. }
  split; [exact Hgen|].
  destruct (Hgen default_radius default_n_bits default_arguments_accepted)
    as [fp [Hfp Hlen]].
  exists fp. split; [exact Hfp|]. rewrite Hlen. reflexivity.
Qed.

Lemma smiles_to_fp_layout (smiles : string) (m : Mol) (radius n_bits : nat) (fp : list Z) :
  MolFromSmiles smiles = Some m ->
  smiles_to_fp smiles radius n_bits = Ok fp ->
  ecfp_then_maccs m radius n_bits fp.
Proof.
  intros Hm Hfp. destruct (smiles_to_fp_ok_shape _ _ _ Hfp) as (m' & Hm' & ->).
  assert (m' = m) by congruence. subst m'.
  split.
  - intros i Hi. rewrite nth_error_app1 by (rewrite ConvertToNumpyArray_length; exact Hi).
    now rewrite ConvertToNumpyArray_nth.
  - intros j Hj. rewrite nth_error_app2 by (rewrite ConvertToNumpyArray_length; cbn; lia).
    rewrite ConvertToNumpyArray_length. cbn [GetNumBits].
    replace (n_bits + j - n_bits) with j by lia.
    now rewrite ConvertToNumpyArray_nth.
Qed.

Lemma convert_layout (smiles_array : list string) (fps : list (list Z)) :
  convert_smiles_to_fingerprints smiles_array = Ok fps ->
  Forall2 (fun s fp => exists m, MolFromSmiles s = Some m
                                 /\ ecfp_then_maccs m default_radius default_n_bits fp)
          smiles_array fps.
Proof.
  intros H. apply comprehension_ok_Forall2 in H.
  induction H as [|s fp ss fps' Hs _ IH]; constructor; [|exact IH].
  destruct (smiles_to_fp_ok_inv _ _ _ Hs) as [m Hm].
  exists m. split; [exact Hm|]. eapply smiles_to_fp_layout; eassumption.
Qed.

(** A batch in which every descriptor parses converts. *)
Lemma convert_total (smiles_array : list string) :
  Forall (fun s => MolFromSmiles s <> None) smiles_array ->
  exists fps, convert_smiles_to_fingerprints smiles_array = Ok fps.
Proof.
  unfold convert_smiles_to_fingerprints.
  induction 1 as [|s ss Hs _ [fps IH]]; [exists []; reflexivity|].
  destruct (MolFromSmiles s) as [m|] eqn:Hm; [|congruence].
  cbn [comprehension].
  rewrite (smiles_to_fp_parsed _ _ _ Hm default_arguments_accepted), IH. cbn [bind].
  eexists. reflexivity.
Qed.

(** The layout with the indices written out. *)
Lemma layout_indices (m : Mol) (fp : list Z) :
  ecfp_then_maccs m default_radius default_n_bits fp ->
  (forall i, i < 2000 ->
     nth_error fp i = Some (if morgan_bit m 2 2000 i then 1%Z else 0%Z))
  /\ (forall i, 2000 <= i < 2167 ->
     nth_error fp i = Some (if maccs_bit m (i - 2000) then 1%Z else 0%Z)).
Proof.
  intros [Hecfp Hmaccs]. split; [exact Hecfp|].
  intros i [Hlo Hhi].
  specialize (Hmaccs (i - 2000)). unfold default_n_bits, MACCS_KEYS in Hmaccs.
  replace (2000 + (i - 2000)) with i in Hmaccs by lia.
  apply Hmaccs. lia.
Qed.

(** C9: every descriptor that parses gets a fingerprint, and in it indices
    0..1999 hold the circular-fingerprint (ECFP) bits and indices 2000..2166
    the MACCS keys; a file of descriptors that parse, read through
    [load_and_preprocess_data] (pretraining, training), and a test set
    converted directly, yield one such fingerprint per descriptor, laid out
    alike. *)
Theorem fingerprint_order :
  (forall (smiles : string) (m : Mol),
      MolFromSmiles smiles = Some m ->
      exists fp,
        smiles_to_fp smiles default_radius default_n_bits = Ok fp
        /\ (forall i, i < 2000 ->
              nth_error fp i = Some (if morgan_bit m 2 2000 i then 1%Z else 0%Z))
        /\ (forall i, 2000 <= i < 2167 ->
              nth_error fp i = Some (if maccs_bit m (i - 2000) then 1%Z else 0%Z)))
  /\ (forall (file : string) (smiles_array : list string),
      read_smiles file = Ok smiles_array ->
      Forall (fun s => MolFromSmiles s <> None) smiles_array ->
      exists fps,
        load_and_preprocess_data file = Ok fps
        /\ Forall2 (fun s fp => exists m, MolFromSmiles s = Some m
                                          /\ ecfp_then_maccs m 2 2000 fp)
                   smiles_array fps)
  /\ (forall (test_x : list string),
      Forall (fun s => MolFromSmiles s <> None) test_x ->
      exists fps,
        convert_smiles_to_fingerprints test_x = Ok fps
        /\ Forall2 (fun s fp => exists m, MolFromSmiles s = Some m
                                          /\ ecfp_then_maccs m 2 2000 fp)
                   test_x fps).
Proof.
  split; [|split].
  - intros smiles m Hm.
    pose proof (smiles_to_fp_parsed _ _ _ Hm default_arguments_accepted) as Hfp.
    eexists. split; [exact Hfp|].
    apply layout_indices. eapply smiles_to_fp_layout; eassumption.
  - intros file smiles_array Hread Hall.
    destruct (convert_total Hall) as [fps Hc]. exists fps. split.
    + unfold load_and_preprocess_data. rewrite Hread. cbn [bind]. rewrite Hc. reflexivity.
    + apply convert_layout. exact Hc.
  - intros test_x Hall.
    destruct (convert_total Hall) as [fps Hc]. exists fps.
    split; [exact Hc | apply convert_layout; exact Hc].
Qed.

End FingerprintFacts.

Lemma fingerprint_length_witness :
  (exists fp, smiles_to_fp (rdkit := sample_rdkit) "CCO" 3 16 = Ok fp
              /\ length fp = 16 + MACCS_KEYS)
  /\ (exists fp,
      smiles_to_fp (rdkit := sample_rdkit) "CCO" default_radius default_n_bits = Ok fp
      /\ length fp = 2167).
Proof.
  destruct (proj2 (@fingerprint_length sample_rdkit "CCO"%string) "CCO"%string eq_refl)
    as [Hgen Hdefault].
  split; [apply (Hgen 3 16); reflexivity | exact Hdefault].
Defined.

Lemma fingerprint_order_witness :
  (exists fp,
      smiles_to_fp (rdkit := sample_rdkit) "CCO" default_radius default_n_bits = Ok fp
      /\ nth_error fp 3 = Some 1%Z /\ nth_error fp 2001 = Some 0%Z)
  /\ (exists fps,
      load_and_preprocess_data (rdkit := sample_rdkit) (pandas := clean_pandas)
        "train_features.csv.zip" = Ok fps
      /\ length fps = 2).
Proof.
  destruct (@fingerprint_order sample_rdkit clean_pandas) as (Hone & Hfile & _).
  split.
  - destruct (Hone "CCO"%string "CCO"%string eq_refl) as (fp & Hfp & Hecfp & Hmaccs).
    exists fp. split; [exact Hfp|]. split.
    + rewrite (Hecfp 3) by lia. reflexivity.
    + rewrite (Hmaccs 2001) by lia. reflexivity.
  - destruct (Hfile "train_features.csv.zip"%string ["CCO"; "c1ccccc1"]%string eq_refl)
      as (fps & Hload & Hrows).
    { repeat constructor; discriminate. }
    exists fps. split; [exact Hload|].
    symmetry. exact (Forall2_length Hrows).
Defined.

(** ** Comparison of binary64 scores

    Python's [<] on floats is IEEE 754 comparison: false whenever an operand
    is NaN. *)

Lemma SFcompare_antisym (x y : spec_float) :
  SFcompare y x = option_map CompOpp (SFcompare x y).
Proof.
  destruct x as [sx|sx| |sx mx ex], y as [sy|sy| |sy my ey]; cbn;
    try reflexivity; try (destruct sx; reflexivity); try (destruct sy; reflexivity);
    try (destruct sx, sy; reflexivity).
  destruct sx, sy; cbn; try reflexivity.
  all: rewrite (Z.compare_antisym ex ey); destruct (ex ?= ey)%Z; cbn; try reflexivity.
  all: rewrite (Pos.compare_cont_antisym _ _ Eq); cbn; try reflexivity.
  now rewrite CompOpp_involutive.
Qed.

Lemma SFcompare_refl (x : spec_float) : x <> S754_nan -> SFcompare x x = Some Eq.
Proof.
  destruct x as [s|s| |s m e]; cbn; intros H; try reflexivity; try congruence.
  - destruct s; reflexivity.
  - rewrite Z.compare_refl. fold (Pos.compare m m). rewrite Pos.compare_refl.
    now destruct s.
Qed.

Lemma SFcompare_defined (x y : spec_float) :
  x <> S754_nan -> y <> S754_nan -> exists c, SFcompare x y = Some c.
Proof. destruct x, y; cbn; intros; try congruence; eauto. Qed.

Lemma SFleb_trans (x y z : spec_float) :
  SFleb x y = true -> SFleb y z = true -> SFleb x z = true.
Proof.
  unfold SFleb.
  destruct x as [sx|sx| |sx mx ex], y as [sy|sy| |sy my ey], z as [sz|sz| |sz mz ez];
    cbn; try discriminate; try reflexivity;
    repeat match goal with s : bool |- _ => destruct s end;
    cbn; try discriminate; try reflexivity.
  all: fold (Pos.compare mx my); fold (Pos.compare my mz); fold (Pos.compare mx mz).
  all: destruct (Z.compare_spec ex ey), (Z.compare_spec ey ez), (Z.compare_spec ex ez);
    cbn; try discriminate; try reflexivity; try lia.
  all: destruct (Pos.compare_spec mx my), (Pos.compare_spec my mz),
         (Pos.compare_spec mx mz);
    cbn; try discriminate; try reflexivity; try lia.
Qed.

Lemma is_nan_false (x : float) : is_nan x = false <-> Prim2SF x <> S754_nan.
Proof.
  unfold is_nan. rewrite eqb_spec. unfold SFeqb. split.
  - intros H Hn. rewrite Hn in H. discriminate.
  - intros H. now rewrite (SFcompare_refl H).
Qed.

Lemma float_ltb_asym (x y : float) : (x <? y)%float = true -> (y <? x)%float = false.
Proof.
  rewrite !ltb_spec. unfold SFltb.
  rewrite (SFcompare_antisym (Prim2SF x) (Prim2SF y)).
  destruct (SFcompare (Prim2SF x) (Prim2SF y)) as [[]|]; cbn; congruence.
Qed.

Lemma float_eqb_not_ltb (x y : float) : (x =? y)%float = true -> (x <? y)%float = false.
Proof.
  rewrite eqb_spec, ltb_spec. unfold SFeqb, SFltb.
  destruct (SFcompare (Prim2SF x) (Prim2SF y)) as [[]|]; congruence.
Qed.

Lemma float_not_ltb_leb (x y : float) :
  is_nan x = false -> is_nan y = false -> (x <? y)%float = false -> (y <=? x)%float = true.
Proof.
  intros Hx%is_nan_false Hy%is_nan_false. rewrite ltb_spec, leb_spec. unfold SFltb, SFleb.
  rewrite (SFcompare_antisym (Prim2SF x) (Prim2SF y)).
  destruct (SFcompare_defined Hx Hy) as [c ->]. destruct c; cbn; congruence.
Qed.

Lemma float_leb_trans (x y z : float) :
  (x <=? y)%float = true -> (y <=? z)%float = true -> (x <=? z)%float = true.
Proof. rewrite !leb_spec. apply SFleb_trans. Qed.

Lemma float_leb_infinity (x : float) : is_nan x = false -> (x <=? infinity)%float = true.
Proof.
  intros H%is_nan_false. rewrite leb_spec. unfold SFleb.
  change (Prim2SF infinity) with (S754_infinity false).
  destruct (Prim2SF x) as [s|s| |s m e]; cbn; try reflexivity; try congruence.
  now destruct s.
Qed.

Lemma SFcompare_some (x y : spec_float) (c : comparison) :
  SFcompare x y = Some c -> x <> S754_nan /\ y <> S754_nan.
Proof. destruct x, y; cbn; intros H; split; congruence. Qed.

Lemma float_ltb_numbers (x y : float) :
  (x <? y)%float = true -> is_nan x = false /\ is_nan y = false.
Proof.
  rewrite ltb_spec, !is_nan_false. unfold SFltb.
  destruct (SFcompare (Prim2SF x) (Prim2SF y)) as [c|] eqn:Hc; [|discriminate].
  intros _. exact (@SFcompare_some _ _ _ Hc).
Qed.

Lemma float_leb_numbers (x y : float) :
  (x <=? y)%float = true -> is_nan x = false /\ is_nan y = false.
Proof.
  rewrite leb_spec, !is_nan_false. unfold SFleb.
  destruct (SFcompare (Prim2SF x) (Prim2SF y)) as [c|] eqn:Hc; [|discriminate].
  intros _. exact (@SFcompare_some _ _ _ Hc).
Qed.

Lemma float_ltb_leb (x y : float) : (x <? y)%float = true -> (x <=? y)%float = true.
Proof.
  rewrite ltb_spec, leb_spec. unfold SFltb, SFleb.
  destruct (SFcompare (Prim2SF x) (Prim2SF y)) as [[]|]; congruence.
Qed.

Lemma float_leb_not_ltb (x y : float) : (y <=? x)%float = true -> (x <? y)%float = false.
Proof.
  rewrite ltb_spec, leb_spec. unfold SFltb, SFleb.
  rewrite (SFcompare_antisym (Prim2SF x) (Prim2SF y)).
  destruct (SFcompare (Prim2SF x) (Prim2SF y)) as [[]|]; cbn; congruence.
Qed.

Lemma float_ltb_leb_trans (x y z : float) :
  (x <? y)%float = true -> (y <=? z)%float = true -> (x <? z)%float = true.
Proof.
  intros Hxy Hyz.
  destruct (float_ltb_numbers Hxy) as [Hx _].
  destruct (float_leb_numbers Hyz) as [_ Hz].
  destruct (x <? z)%float eqn:Hxz; [reflexivity|].
  pose proof (float_not_ltb_leb Hx Hz Hxz) as Hzx.
  pose proof (float_leb_not_ltb (float_leb_trans Hyz Hzx)) as Hn.
  congruence.
Qed.

Lemma float_ltb_trans (x y z : float) :
  (x <? y)%float = true -> (y <? z)%float = true -> (x <? z)%float = true.
Proof. intros Hxy Hyz. eapply float_ltb_leb_trans; [exact Hxy | apply float_ltb_leb, Hyz]. Qed.

Lemma float_ltb_irrefl (x : float) : (x <? x)%float = false.
Proof.
  destruct (x <? x)%float eqn:H; [|reflexivity].
  pose proof (float_ltb_asym H). congruence.
Qed.

(** Nothing is strictly below a number that nothing strictly below [z]
    reaches. *)
Lemma float_not_ltb_below (x y z : float) :
  is_nan y = false -> is_nan z = false ->
  (y <? z)%float = false -> (x <? y)%float = false -> (x <? z)%float = false.
Proof.
  intros Hy Hz Hyz Hxy.
  destruct (x <? z)%float eqn:Hxz; [|reflexivity].
  pose proof (float_ltb_leb_trans Hxz (float_not_ltb_leb Hy Hz Hyz)). congruence.
Qed.

(** ** Regressor selection *)

Lemma select_best_model_lr {M : Type} (lr xgb : M) (lr_rmse xgb_rmse : float) :
  (lr_rmse <? xgb_rmse)%float = true ->
  select_best_model lr xgb lr_rmse xgb_rmse = (lr, "Linear Regression model selected"%string).
Proof. intros H. unfold select_best_model. now rewrite H. Qed.

Lemma select_best_model_xgb {M : Type} (lr xgb : M) (lr_rmse xgb_rmse : float) :
  (lr_rmse <? xgb_rmse)%float = false ->
  select_best_model lr xgb lr_rmse xgb_rmse = (xgb, "XGBoost model selected"%string).
Proof. intros H. unfold select_best_model. now rewrite H. Qed.

(** C1, as the code has it: the candidate with the strictly lower RMSE is
    selected, and on equal scores the XGBoost model is. *)
Theorem select_lower_rmse_ties_to_xgboost {M : Type} (lr xgb : M) (lr_rmse xgb_rmse : float) :
  ((lr_rmse <? xgb_rmse)%float = true ->
     fst (select_best_model lr xgb lr_rmse xgb_rmse) = lr)
  /\ ((xgb_rmse <? lr_rmse)%float = true ->
     fst (select_best_model lr xgb lr_rmse xgb_rmse) = xgb)
  /\ ((lr_rmse =? xgb_rmse)%float = true ->
     fst (select_best_model lr xgb lr_rmse xgb_rmse) = xgb).
Proof.
  repeat split; intros H.
  - now rewrite select_best_model_lr.
  - now rewrite select_best_model_xgb by (apply float_ltb_asym; exact H).
  - now rewrite select_best_model_xgb by (apply float_eqb_not_ltb; exact H).
Qed.

Lemma select_lower_rmse_ties_to_xgboost_witness :
  fst (select_best_model lr_model xgb_model 0.25 0.5) = lr_model
  /\ fst (select_best_model lr_model xgb_model 0.5 0.25) = xgb_model
  /\ fst (select_best_model lr_model xgb_model 0.5 0.5) = xgb_model.
Proof.
  split; [|split].
  - apply (proj1 (select_lower_rmse_ties_to_xgboost lr_model xgb_model 0.25 0.5)).
    reflexivity.
  - apply (proj1 (proj2 (select_lower_rmse_ties_to_xgboost lr_model xgb_model 0.5 0.25))).
    reflexivity.
  - apply (proj2 (proj2 (select_lower_rmse_ties_to_xgboost lr_model xgb_model 0.5 0.5))).
    reflexivity.
Defined.

(** C1 as stated fails on a tie: with both scores 0.5 the selection keeps the
    XGBoost model, not the linear one. *)
Lemma tie_does_not_select_linear :
  (0.5 =? 0.5)%float = true
  /\ select_best_model lr_model xgb_model 0.5 0.5
     = (xgb_model, "XGBoost model selected"%string)
  /\ fst (select_best_model lr_model xgb_model 0.5 0.5) <> lr_model.
Proof. split; [reflexivity|]. split; [reflexivity|]. cbn. discriminate. Qed.

(** C10: the selection is total and a tie goes to the XGBoost model: exactly
    one of the two outcomes happens for any two scores, and whenever the
    linear score is not strictly lower (equal scores included) the XGBoost
    model is kept. *)
Theorem selection_total_else_xgboost {M : Type} (lr xgb : M) (lr_rmse xgb_rmse : float) :
  let linear := (lr, "Linear Regression model selected"%string) in
  let ensemble := (xgb, "XGBoost model selected"%string) in
  let selected := select_best_model lr xgb lr_rmse xgb_rmse in
  (selected = linear \/ selected = ensemble)
  /\ ~ (selected = linear /\ selected = ensemble)
  /\ ((lr_rmse <? xgb_rmse)%float = false -> selected = ensemble)
  /\ ((lr_rmse =? xgb_rmse)%float = true -> selected = ensemble).
Proof.
  cbv zeta. repeat split.
  - destruct (lr_rmse <? xgb_rmse)%float eqn:H.
    + left. now apply select_best_model_lr.
    + right. now apply select_best_model_xgb.
  - intros [H1 H2]. rewrite H1 in H2. discriminate.
  - apply select_best_model_xgb.
  - intros H. apply select_best_model_xgb, float_eqb_not_ltb, H.
Qed.

Lemma selection_total_else_xgboost_witness :
  select_best_model lr_model xgb_model 0.75 0.5
  = (xgb_model, "XGBoost model selected"%string)
  /\ select_best_model lr_model xgb_model nan 0.5
     = (xgb_model, "XGBoost model selected"%string)
  /\ select_best_model lr_model xgb_model 0.5 0.5
     = (xgb_model, "XGBoost model selected"%string).
Proof.
  pose proof (selection_total_else_xgboost lr_model xgb_model 0.75 0.5) as H1.
  pose proof (selection_total_else_xgboost lr_model xgb_model nan 0.5) as H2.
  pose proof (selection_total_else_xgboost lr_model xgb_model 0.5 0.5) as H3.
  cbv zeta in H1, H2, H3.
  destruct H1 as (_ & _ & H1 & _), H2 as (_ & _ & H2 & _), H3 as (_ & _ & _ & H3).
  split; [|split].
  - apply H1. reflexivity.
  - apply H2. reflexivity.
  - apply H3. reflexivity.
Defined.

(** ** Keras layers: shapes *)

Lemma enumerate_length {A : Type} (xs : list A) : length (enumerate xs) = length xs.
Proof. unfold enumerate. rewrite length_combine, length_seq. apply Nat.min_id. Qed.

Lemma softmax_row_length (z : list R) : length (softmax_row z) = length z.
Proof. unfold softmax_row. now rewrite !length_map. Qed.

Lemma dense_row_length (units : nat) (a : Activation) (w : LayerWeights) (x : list R) :
  length (dense_row units a w x) = units.
Proof.
  unfold dense_row. destruct a; cbn [activate];
    [|rewrite softmax_row_length]; now rewrite length_map, length_seq.
Qed.

Lemma batchnorm_row_length (w : LayerWeights) (mean variance : nat -> R) (x : list R) :
  length (batchnorm_row w mean variance x) = length x.
Proof. unfold batchnorm_row. now rewrite length_map, enumerate_length. Qed.

Lemma leaky_relu_row_length (alpha : R) (x : list R) :
  length (leaky_relu_row alpha x) = length x.
Proof. unfold leaky_relu_row. now rewrite length_map. Qed.

Lemma dropout_row_length (rate : R) (keep : nat -> bool) (x : list R) :
  length (dropout_row rate keep x) = length x.
Proof. unfold dropout_row. now rewrite length_map, enumerate_length. Qed.

Lemma rows_of_width_map (f : list R -> list R) (d d' : nat) (batch : list (list R)) :
  (forall x, length x = d -> length (f x) = d') ->
  rows_of_width d batch -> rows_of_width d' (map f batch).
Proof.
  intros Hf H. unfold rows_of_width in *. rewrite Forall_map.
  eapply Forall_impl; [|exact H]. exact Hf.
Qed.

Lemma enumerate_snd_In {A : Type} (xs : list A) (ix : nat * A) :
  In ix (enumerate xs) -> In (snd ix) xs.
Proof. destruct ix as [i x]. unfold enumerate. intros H. eapply in_combine_r, H. Qed.

(** Every layer, in either mode, keeps the number of rows and turns rows of
    one width into rows of the width Keras infers for it. *)
Lemma layer_call_rows (mode : Mode) (position : nat) (l : Layer) (w : LayerWeights)
    (batch : list (list R)) :
  length (layer_call mode position l w batch) = length batch.
Proof.
  destruct l, mode; cbn [layer_call];
    rewrite ?length_map, ?enumerate_length; reflexivity.
Qed.

Lemma layer_call_width (mode : Mode) (position : nat) (l : Layer) (w : LayerWeights)
    (d : nat) (batch : list (list R)) :
  rows_of_width d batch ->
  rows_of_width (layer_output_dim l d) (layer_call mode position l w batch).
Proof.
  intros H. destruct l as [units a| |alpha|rate]; cbn [layer_call layer_output_dim].
  - apply rows_of_width_map with (d := d); [|exact H].
    intros x _. apply dense_row_length.
  - destruct mode; (apply rows_of_width_map with (d := d); [|exact H]);
      intros x Hx; now rewrite batchnorm_row_length.
  - apply rows_of_width_map with (d := d); [|exact H].
    intros x Hx. now rewrite leaky_relu_row_length.
  - destruct mode; [exact H|].
    unfold rows_of_width in *. rewrite Forall_map, Forall_forall.
    intros rx Hrx. rewrite dropout_row_length.
    rewrite Forall_forall in H. apply H. apply enumerate_snd_In, Hrx.
Qed.

Lemma call_layers_rows (mode : Mode) (theta : Weights) (ls : list Layer) :
  forall (position : nat) (batch : list (list R)),
    length (call_layers mode theta position ls batch) = length batch.
Proof.
  induction ls as [|l ls IH]; intros position batch; cbn [call_layers]; [reflexivity|].
  now rewrite IH, layer_call_rows.
Qed.

Lemma call_layers_width (mode : Mode) (theta : Weights) (ls : list Layer) :
  forall (position d : nat) (batch : list (list R)),
    rows_of_width d batch ->
    rows_of_width (fold_left (fun d l => layer_output_dim l d) ls d)
                  (call_layers mode theta position ls batch).
Proof.
  induction ls as [|l ls IH]; intros position d batch H; cbn [call_layers fold_left];
    [exact H|].
  apply IH, layer_call_width, H.
Qed.

Lemma call_layers_app (mode : Mode) (theta : Weights) (ls1 ls2 : list Layer) :
  forall (position : nat) (batch : list (list R)),
    call_layers mode theta position (ls1 ++ ls2) batch =
    call_layers mode theta (position + length ls1) ls2
      (call_layers mode theta position ls1 batch).
Proof.
  induction ls1 as [|l ls1 IH]; intros position batch; cbn [call_layers app length].
  - now rewrite Nat.add_0_r.
  - rewrite IH. f_equal. lia.
Qed.

Lemma rows_of_width_forallb (d : nat) (batch : list (list R)) :
  rows_of_width d batch <-> forallb (fun x => Nat.eqb (length x) d) batch = true.
Proof.
  unfold rows_of_width. rewrite forallb_forall, Forall_forall.
  split; intros H x Hx; specialize (H x Hx); now apply Nat.eqb_eq.
Qed.

Lemma call_ok (mode : Mode) (m : Model) (theta : Weights) (batch : list (list R)) :
  rows_of_width (input_dim m) batch ->
  call mode m theta batch = Ok (call_layers mode theta 0 (layers m) batch).
Proof. intros H%rows_of_width_forallb. unfold call. now rewrite H. Qed.

(** ** Keras layers: inference is row by row *)

Lemma layer_call_inference (position : nat) (l : Layer) (w : LayerWeights)
    (batch : list (list R)) :
  layer_call Inference position l w batch = map (layer_infer_row l w) batch.
Proof. destruct l; cbn [layer_call layer_infer_row]; try reflexivity. now rewrite map_id. Qed.

Lemma call_layers_inference (theta : Weights) (ls : list Layer) :
  forall (position : nat) (batch : list (list R)),
    call_layers Inference theta position ls batch = map (infer_row theta position ls) batch.
Proof.
  induction ls as [|l ls IH]; intros position batch; cbn [call_layers infer_row].
  - now rewrite map_id.
  - now rewrite IH, layer_call_inference, map_map.
Qed.

Lemma concat_batches_fuel {A : Type} (batch_size : nat) :
  0 < batch_size ->
  forall (fuel : nat) (x : list A),
    length x <= fuel -> concat (batches_fuel fuel batch_size x) = x.
Proof.
  intros Hpos. induction fuel as [|fuel IH]; intros x Hlen.
  - destruct x; [reflexivity | cbn in Hlen; lia].
  - destruct x as [|a x]; [reflexivity|].
    cbn [batches_fuel concat]. rewrite IH.
    + apply firstn_skipn.
    + rewrite length_skipn. cbn [length] in *. lia.
Qed.

Lemma concat_batches {A : Type} (batch_size : nat) (x : list A) :
  0 < batch_size -> concat (batches batch_size x) = x.
Proof. intros H. apply concat_batches_fuel; [exact H | apply Nat.le_refl]. Qed.

Lemma batches_rows_of_width (d batch_size : nat) (x : list (list R)) :
  0 < batch_size -> rows_of_width d x ->
  forall b, In b (batches batch_size x) -> rows_of_width d b.
Proof.
  intros Hpos Hx b Hb. unfold rows_of_width in *. rewrite Forall_forall in *.
  intros r Hr. apply Hx. rewrite <- (concat_batches x Hpos).
  apply in_concat. exists b. split; assumption.
Qed.

(** [predict] on rows of the right width: each row sees the layers in
    inference mode, by itself, and the rows keep their order. *)
Lemma predict_rows (m : Model) (theta : Weights) (x : list (list R)) :
  x <> [] -> rows_of_width (input_dim m) x ->
  predict m theta x = Ok (map (infer_row theta 0 (layers m)) x).
Proof.
  intros Hne Hx. unfold predict. destruct x as [|a x']; [congruence|].
  set (x := a :: x') in *.
  assert (Hpos : 0 < predict_batch_size) by (unfold predict_batch_size; lia).
  rewrite (comprehension_total (call Inference m theta)
             (map (infer_row theta 0 (layers m)))).
  - cbn [bind]. rewrite <- concat_map, concat_batches by exact Hpos. reflexivity.
  - intros b Hb. rewrite call_ok by (eapply batches_rows_of_width; eassumption).
    now rewrite call_layers_inference.
Qed.

Lemma infer_row_width (theta : Weights) (m : Model) (x : list R) :
  length x = input_dim m -> length (infer_row theta 0 (layers m) x) = output_dim m.
Proof.
  intros Hx.
  assert (H : rows_of_width (input_dim m) [x]) by (constructor; [exact Hx | constructor]).
  apply (call_layers_width Inference theta (layers m) 0) in H.
  rewrite call_layers_inference in H. cbn [map] in H.
  unfold rows_of_width in H. now inversion H.
Qed.

(** ** The encoder *)

Lemma model_and_encoder_created :
  create_combined_model default_input_dim = Ok (model, encoder).
Proof. reflexivity. Qed.

Lemma create_combined_model_refuses (d : nat) :
  d <> default_input_dim -> create_combined_model d = Raise ValueError.
Proof.
  intros H. unfold create_combined_model.
  destruct (Nat.eqb_spec d (Keras.input_dim (create_encoder default_input_dim)))
    as [E|_]; [|reflexivity].
  contradiction.
Qed.

Lemma last_dense_width (mode : Mode) (theta : Weights) (hidden : list Layer)
    (units : nat) (a : Activation) (position : nat) (batch : list (list R)) :
  rows_of_width units
    (call_layers mode theta position (hidden ++ [Dense units a]) batch).
Proof.
  rewrite call_layers_app. cbn [call_layers layer_call].
  unfold rows_of_width. rewrite Forall_map. apply Forall_forall.
  intros x _. apply dense_row_length.
Qed.

(** The encoder's output width is the constant of its last layer, whatever
    [input_dim] it is built with. *)
Lemma create_encoder_output_dim (input_dim : nat) :
  output_dim (create_encoder input_dim) = 2167.
Proof. reflexivity. Qed.

(** C6: the encoder takes rows of 2167 entries and returns rows of 2167
    entries, in [predict] and in either mode of a direct call, under any
    weights; the width comes from the last [Dense(2167)] alone, whatever
    layers stand before it. *)
Theorem encoder_output_width_is_input_width :
  input_dim encoder = 2167
  /\ output_dim encoder = input_dim encoder
  /\ (forall (theta : Weights) (x : list R),
        length x = 2167 ->
        exists y, predict encoder theta [x] = Ok [y] /\ length y = length x)
  /\ (forall (mode : Mode) (theta : Weights) (batch : list (list R)),
        rows_of_width 2167 batch ->
        exists out, call mode encoder theta batch = Ok out
                    /\ length out = length batch /\ rows_of_width 2167 out)
  /\ (forall (hidden : list Layer) (mode : Mode) (theta : Weights)
             (batch : list (list R)),
        rows_of_width 2167
          (call_layers mode theta 0 (hidden ++ [Dense 2167 linear]) batch)).
Proof.
  split; [reflexivity|]. split; [reflexivity|]. split; [|split].
  - intros theta x Hx.
    exists (infer_row theta 0 (layers encoder) x). split.
    + rewrite predict_rows; [reflexivity | discriminate |].
      constructor; [exact Hx | constructor].
    + rewrite (infer_row_width theta encoder x Hx), Hx. reflexivity.
  - intros mode theta batch Hb.
    exists (call_layers mode theta 0 (layers encoder) batch). split; [|split].
    + apply call_ok. exact Hb.
    + apply call_layers_rows.
    + exact (call_layers_width mode theta (layers encoder) 0 Hb).
  - intros hidden mode theta batch. apply last_dense_width.
Qed.

Lemma encoder_output_width_is_input_width_witness :
  exists y, predict encoder zero_weights [zero_fingerprint] = Ok [y]
            /\ length y = length zero_fingerprint.
Proof.
  apply (proj1 (proj2 (proj2 encoder_output_width_is_input_width))).
  apply repeat_length.
Defined.

(** C8: feature extraction is row by row and keeps the order.  The latent
    vector at position [i] of [encoder.predict(fingerprints)] is the one
    [encoder.predict] returns for that fingerprint alone, a function of the
    fingerprint and the weights only. *)
Theorem extract_is_row_independent (theta : Weights) (fingerprints : list (list R))
    (i : nat) (b : list R) :
  rows_of_width 2167 fingerprints ->
  nth_error fingerprints i = Some b ->
  exists latents latent,
    predict encoder theta fingerprints = Ok latents
    /\ predict encoder theta [b] = Ok [latent]
    /\ nth_error latents i = Some latent
    /\ length latents = length fingerprints
    /\ latent = infer_row theta 0 (layers encoder) b.
Proof.
  intros Hw Hi.
  exists (map (infer_row theta 0 (layers encoder)) fingerprints),
         (infer_row theta 0 (layers encoder) b).
  split; [|split; [|split; [|split]]].
  - apply predict_rows; [|exact Hw]. intros ->. destruct i; discriminate.
  - rewrite predict_rows; [reflexivity | discriminate |].
    constructor; [|constructor].
    unfold rows_of_width in Hw. rewrite Forall_forall in Hw.
    apply Hw. eapply nth_error_In, Hi.
  - now apply map_nth_error.
  - apply length_map.
  - reflexivity.
Qed.

Lemma extract_is_row_independent_witness :
  exists latents latent,
    predict encoder zero_weights
      [zero_fingerprint; repeat 1%R 2167; zero_fingerprint] = Ok latents
    /\ predict encoder zero_weights [repeat 1%R 2167] = Ok [latent]
    /\ nth_error latents 1 = Some latent
    /\ length latents = 3
    /\ latent = infer_row zero_weights 0 (layers encoder) (repeat 1%R 2167).
Proof.
  apply (@extract_is_row_independent zero_weights
           [zero_fingerprint; repeat 1%R 2167; zero_fingerprint] 1 (repeat 1%R 2167)).
  - unfold zero_fingerprint. repeat (constructor; [apply repeat_length|]). constructor.
  - reflexivity.
Defined.

(** ** The decoder *)

Lemma rsum_map_div (s : R) (es : list R) :
  rsum (map (fun e => (e / s)%R) es) = (rsum es / s)%R.
Proof.
  induction es as [|e es IH]; cbn [map rsum fold_right].
  - unfold Rdiv. now rewrite Rmult_0_l.
  - fold (rsum (map (fun e => (e / s)%R) es)). fold (rsum es). rewrite IH.
    unfold Rdiv. ring.
Qed.

Lemma rsum_exp_pos (z : list R) : z <> [] -> (0 < rsum (map exp z))%R.
Proof.
  destruct z as [|a z]; [congruence|]. intros _.
  cbn [map rsum fold_right]. fold (rsum (map exp z)).
  assert (H : (0 <= rsum (map exp z))%R).
  { induction z as [|c z IH]; cbn [map rsum fold_right]; [apply Rle_refl|].
    fold (rsum (map exp z)). pose proof (exp_pos c). lra. }
  pose proof (exp_pos a). lra.
Qed.

(** Softmax of a vector that is not empty is a probability vector. *)
Lemma softmax_row_probability (z : list R) :
  z <> [] -> probability_vector (softmax_row z).
Proof.
  intros Hz. pose proof (rsum_exp_pos Hz) as Hs.
  unfold probability_vector, softmax_row. split.
  - rewrite !Forall_map. apply Forall_forall. intros v _.
    apply Rlt_le, Rdiv_lt_0_compat; [apply exp_pos | exact Hs].
  - rewrite rsum_map_div. unfold Rdiv. apply Rinv_r. lra.
Qed.

Lemma dense_softmax_probability (units : nat) (w : LayerWeights) (x : list R) :
  0 < units -> probability_vector (dense_row units softmax w x).
Proof.
  intros Hu. unfold dense_row. cbn [activate]. apply softmax_row_probability.
  intros H. apply (f_equal (@length R)) in H.
  rewrite length_map, length_seq in H. cbn [length] in H. lia.
Qed.

Lemma decoder_rows (mode : Mode) (theta : Weights) (batch : list (list R)) :
  Forall (fun y => length y = 2167 /\ probability_vector y)
         (call_layers mode theta 0 (layers (decoder_part model)) batch).
Proof.
  change (layers (decoder_part model))
    with ([Dense 2000 linear; BatchNormalization; LeakyReLU 0.01; Dropout 0.5]
          ++ [Dense 2167 softmax]).
  rewrite call_layers_app. cbn [call_layers layer_call].
  rewrite Forall_map. apply Forall_forall. intros x _. split.
  - apply dense_row_length.
  - apply dense_softmax_probability. lia.
Qed.

(** C7: whatever the weights (fresh or trained), the mode and the input rows
    (2167 real entries each), every row the decoder returns is a probability
    vector of 2167 entries: no entry negative, the entries summing to 1; so
    is every reconstruction the combined model returns for a fingerprint
    sent through encoder and decoder. *)
Theorem decoder_output_is_probability_vector :
  (forall (mode : Mode) (theta : Weights) (batch : list (list R)),
      rows_of_width 2167 batch ->
      exists out, call mode (decoder_part model) theta batch = Ok out
                  /\ length out = length batch
                  /\ Forall (fun y => length y = 2167 /\ probability_vector y) out)
  /\ (forall (mode : Mode) (w : CombinedWeights) (inputs : list (list R)),
      rows_of_width 2167 inputs ->
      exists decoded predicted,
        call_combined mode model w inputs = Ok (decoded, predicted)
        /\ length decoded = length inputs
        /\ Forall (fun y => length y = 2167 /\ probability_vector y) decoded).
Proof.
  split.
  - intros mode theta batch Hb.
    exists (call_layers mode theta 0 (layers (decoder_part model)) batch).
    split; [|split].
    + apply call_ok. exact Hb.
    + apply call_layers_rows.
    + apply decoder_rows.
  - intros mode w inputs Hin.
    set (encoded := call_layers mode (encoder_weights w) 0 (layers encoder) inputs).
    assert (Henc : rows_of_width 2167 encoded)
      by exact (call_layers_width mode (encoder_weights w) (layers encoder) 0 Hin).
    exists (call_layers mode (decoder_weights w) 0 (layers (decoder_part model)) encoded),
           (call_layers mode (predictor_weights w) 0 (layers (predictor_part model)) encoded).
    split; [|split].
    + unfold call_combined.
      replace (forallb _ inputs) with true
        by (symmetry; apply rows_of_width_forallb; exact Hin).
      change (encoder_part model) with encoder.
      rewrite (call_ok mode encoder (encoder_weights w) Hin). cbn [bind].
      fold encoded.
      rewrite (call_ok mode (decoder_part model) (decoder_weights w) Henc). cbn [bind].
      rewrite (call_ok mode (predictor_part model) (predictor_weights w) Henc).
      reflexivity.
    + unfold encoded. now rewrite !call_layers_rows.
    + apply decoder_rows.
Qed.

Lemma decoder_output_is_probability_vector_witness :
  exists out, call Inference (decoder_part model) zero_weights [zero_fingerprint] = Ok out
              /\ length out = 1
              /\ Forall (fun y => length y = 2167 /\ probability_vector y) out.
Proof.
  apply (proj1 decoder_output_is_probability_vector Inference zero_weights
           [zero_fingerprint]).
  constructor; [apply repeat_length | constructor].
Defined.

(** ** Malformed descriptors *)

Section NotebookFacts.

Context {rdkit : RDKit} {pandas : Pandas} {estimators : Estimators}
        {optimiser : Optimiser}.

Lemma convert_raises (smiles : string) (smiles_array : list string) :
  MolFromSmiles smiles = None -> In smiles smiles_array ->
  raises (convert_smiles_to_fingerprints smiles_array).
Proof.
  intros Hm Hin. unfold convert_smiles_to_fingerprints.
  apply comprehension_raises with (x := smiles); [exact Hin|].
  exists ArgumentError. apply smiles_to_fp_unparsed, Hm.
Qed.

(** C3: a descriptor that does not parse makes [smiles_to_fp] raise (it
    returns no vector, so no zero vector either); a batch holding such a
    descriptor makes the conversion of the whole batch raise; hence neither
    the inference path nor the notebook run returns any prediction for a
    test set with a malformed row. *)
Theorem malformed_descriptor_fails_closed (smiles : string) :
  MolFromSmiles smiles = None ->
  (forall radius n_bits,
      smiles_to_fp smiles radius n_bits = Raise ArgumentError
      /\ forall fp, smiles_to_fp smiles radius n_bits <> Ok fp)
  /\ (forall smiles_array,
      In smiles smiles_array ->
      raises (convert_smiles_to_fingerprints smiles_array))
  /\ (forall (enc : Model) (theta : Weights) (best_model : Regressor) (test_x : list string),
      In smiles test_x ->
      raises (inference enc theta best_model test_x)
      /\ forall predictions, inference enc theta best_model test_x <> Ok predictions)
  /\ (forall test_x,
      read_smiles "test_features.csv.zip" = Ok test_x ->
      In smiles test_x ->
      raises notebook /\ forall results, notebook <> Ok results).
Proof.
  intros Hm. split; [|split; [|split]].
  - intros radius n_bits. rewrite (smiles_to_fp_unparsed _ _ _ Hm).
    split; [reflexivity | discriminate].
  - intros smiles_array Hin. eapply convert_raises; eassumption.
  - intros enc theta best_model test_x Hin.
    assert (H : raises (inference enc theta best_model test_x)).
    { unfold inference. apply bind_raises. eapply convert_raises; eassumption. }
    split; [exact H | apply raises_not_ok, H].
  - intros test_x Hread Hin.
    assert (H : raises notebook).
    { unfold notebook.
      destruct (load_and_preprocess_data "pretrain_features.csv.zip") as [px|e];
        cbn [bind]; [|eexists; reflexivity].
      destruct (read_labels "pretrain_labels.csv.zip") as [py|e];
        cbn [bind]; [|eexists; reflexivity].
      destruct (load_and_preprocess_data "train_features.csv.zip") as [tx|e];
        cbn [bind]; [|eexists; reflexivity].
      destruct (read_labels "train_labels.csv.zip") as [ty|e];
        cbn [bind]; [|eexists; reflexivity].
      rewrite Hread. cbn [bind].
      apply bind_raises. eapply convert_raises; eassumption. }
    split; [exact H | apply raises_not_ok, H].
Qed.

(** A run of the notebook that completes reports both scores and announces
    the model the comparison [lr_rmse < xgb_rmse] picks. *)
Lemma notebook_selection (r : Results) :
  notebook = Ok r ->
  ((lr_rmse r <? xgb_rmse r)%float = true
   /\ printed r = "Linear Regression model selected"%string)
  \/ ((lr_rmse r <? xgb_rmse r)%float = false
      /\ printed r = "XGBoost model selected"%string).
Proof.
  unfold notebook. intros H.
  bind_ok H px Hpx. bind_ok H py Hpy. bind_ok H tx Htx. bind_ok H ty Hty.
  bind_ok H test_x Htest. bind_ok H test_fp Hfp. bind_ok H enc Henc.
  bind_ok H parts Hparts. destruct parts as [[[x x_val] y] y_val].
  bind_ok H lr Hlr. bind_ok H xgb Hxgb.
  bind_ok H lr_val Hlrv. bind_ok H lr_score Hlrs.
  bind_ok H xgb_val Hxgbv. bind_ok H xgb_score Hxgbs.
  unfold select_best_model in H.
  destruct (lr_score <? xgb_score)%float eqn:Hlt;
    bind_ok H preds Hp; injection H as <-; cbn; auto.
Qed.

End NotebookFacts.

Lemma malformed_descriptor_fails_closed_witness :
  MolFromSmiles (RDKit := sample_rdkit) "C1CC" = None
  /\ raises (convert_smiles_to_fingerprints (rdkit := sample_rdkit)
               ["CCO"; "C1CC"; "c1ccccc1"]%string)
  /\ raises (notebook (rdkit := sample_rdkit) (pandas := sample_pandas)
               (estimators := sample_estimators) (optimiser := sample_optimiser)).
Proof.
  assert (Hm : MolFromSmiles (RDKit := sample_rdkit) "C1CC" = None) by reflexivity.
  destruct (@malformed_descriptor_fails_closed sample_rdkit sample_pandas
              sample_estimators sample_optimiser "C1CC"%string Hm)
    as (_ & Hbatch & _ & Hrun).
  split; [exact Hm|]. split.
  - apply Hbatch. cbn. auto.
  - apply (Hrun ["CCO"; "C1CC"; "c1ccccc1"]%string); [reflexivity | cbn; auto].
Defined.

(** ** Early stopping *)

Section FitFacts.

Variable W : Type.
Variable Slots : Type.
Variable train_epoch : W -> Slots -> float -> W * Slots.
Variable val_predictor_rmse : W -> float.

Local Abbreviation epoch_of := (run_epoch train_epoch val_predictor_rmse).
Local Abbreviation loop := (fit_loop train_epoch val_predictor_rmse).
Local Abbreviation invariant := (fit_invariant val_predictor_rmse).

Lemma fit_loop_S (remaining epoch : nat) (s : FitState W Slots) :
  loop (S remaining) epoch s =
  if stop_training (epoch_of epoch s) then epoch_of epoch s
  else loop remaining (S epoch) (epoch_of epoch s).
Proof. reflexivity. Qed.

Lemma fit_invariant_begin (w0 : W) (o0 : Slots) :
  invariant 0 (on_train_begin w0 o0).
Proof.
  unfold fit_invariant, on_train_begin. cbn.
  repeat split; try reflexivity; try discriminate. intros v [].
Qed.

(** Every epoch keeps the invariant. *)
Lemma run_epoch_invariant (n : nat) (s : FitState W Slots) :
  invariant n s -> invariant (S n) (epoch_of n s).
Proof.
  intros (Hlen & Hhist & Hnone & Hheld & _).
  unfold run_epoch.
  destruct (train_epoch (weights s) (optimizer s) (learning_rate s)) as [w o].
  set (current := val_predictor_rmse w) in *.
  destruct (reduce_lr_on_epoch_end reduce_lr current (learning_rate s) (rlr s))
    as [rlr' lr'].
  unfold early_stopping_on_epoch_end, early_stopping.
  cbn [es_patience restore_best_weights].
  destruct (current <? es_best (es s))%float eqn:Himp.
  - (* an improvement: the snapshot is this epoch's *)
    unfold fit_invariant.
    cbn [snapshots history es es_best es_wait best_weights best_epoch stop_training].
    split; [rewrite length_app; cbn; lia|].
    split; [rewrite map_app, Hhist; reflexivity|].
    split.
    { intros v [Hv|[<-|[]]]%in_app_or; [|apply float_ltb_irrefl].
      destruct (v <? current)%float eqn:Hlt; [|reflexivity].
      rewrite <- (Hnone v Hv). symmetry. exact (float_ltb_trans Hlt Himp). }
    split; [|discriminate].
    split; [rewrite nth_error_app2 by lia; rewrite Hlen, Nat.sub_diag; reflexivity|].
    split; [lia | left; reflexivity].
  - (* no improvement: the snapshot held stays (the first epoch's, if none yet) *)
    assert (Hnone' : forall v, In v (history s ++ [current]) ->
                               (v <? es_best (es s))%float = false).
    { intros v [Hv|[<-|[]]]%in_app_or; [apply Hnone, Hv | exact Himp]. }
    assert (Hkeep :
      match (match best_weights (es s) with None => Some w | Some b => Some b end) with
      | None => False
      | Some wb =>
          nth_error (snapshots s ++ [w])
            (match best_weights (es s) with None => n | Some _ => best_epoch (es s) end)
          = Some wb
          /\ (match best_weights (es s) with None => n | Some _ => best_epoch (es s) end)
             + S (es_wait (es s)) <= S n
          /\ (val_predictor_rmse wb = es_best (es s)
              \/ ((val_predictor_rmse wb <? infinity)%float = false
                  /\ es_best (es s) = infinity))
      end).
    { destruct (best_weights (es s)) as [wb|].
      - destruct Hheld as (Hnth & Hwait & Hvalue).
        assert (Hbe : best_epoch (es s) < n)
          by (rewrite <- Hlen; apply nth_error_Some; congruence).
        split; [rewrite nth_error_app1 by lia; exact Hnth|].
        split; [lia | exact Hvalue].
      - destruct Hheld as (-> & Hinf & Hwait).
        split; [rewrite nth_error_app2 by lia; rewrite Hlen; reflexivity|].
        split; [lia|]. right. split; [|exact Hinf].
        fold current. rewrite <- Hinf. exact Himp. }
    destruct ((20 <=? S (es_wait (es s))) && (0 <? n)) eqn:Hstop;
      unfold fit_invariant;
      cbn [snapshots history es es_best es_wait best_weights best_epoch stop_training
           weights stopped_epoch];
      (split; [rewrite length_app; cbn; lia|]);
      (split; [rewrite map_app, Hhist; reflexivity|]);
      (split; [exact Hnone'|]).
    + apply andb_prop in Hstop as [Hpatience _]. apply Nat.leb_le in Hpatience.
      destruct (best_weights (es s)) as [wb|]; (split; [exact Hkeep|]);
        intros _; (split; [reflexivity|]); (split; [lia | exact Hpatience]).
    + destruct (best_weights (es s)) as [wb|]; (split; [exact Hkeep | discriminate]).
Qed.

(** The loop keeps it, and ends either stopped or with every epoch run. *)
Lemma fit_loop_invariant (remaining : nat) :
  forall (n : nat) (s : FitState W Slots),
    invariant n s ->
    exists n', invariant n' (loop remaining n s)
               /\ (stop_training (loop remaining n s) = true \/ n' = n + remaining).
Proof.
  induction remaining as [|remaining IH]; intros n s Hinv.
  - exists n. split; [exact Hinv | right; lia].
  - rewrite fit_loop_S.
    pose proof (run_epoch_invariant Hinv) as Hinv'.
    destruct (stop_training (epoch_of n s)) eqn:Hstop.
    + exists (S n). split; [exact Hinv' | left; exact Hstop].
    + destruct (IH (S n) _ Hinv') as (n' & Hn' & Hend).
      exists n'. split; [exact Hn'|]. destruct Hend as [Hend| ->]; [now left | right; lia].
Qed.

(** One epoch on a plateau: with a snapshot [b] held and no error ever below
    the best one recorded, the epoch either stops training and puts [b]
    back, or counts one more epoch without improvement. *)
Lemma run_epoch_plateau (b : W) (n : nat) (s : FitState W Slots) :
  (forall w, (val_predictor_rmse w <? es_best (es s))%float = false) ->
  0 < n -> best_weights (es s) = Some b ->
  es_best (es (epoch_of n s)) = es_best (es s)
  /\ best_weights (es (epoch_of n s)) = Some b
  /\ best_epoch (es (epoch_of n s)) = best_epoch (es s)
  /\ es_wait (es (epoch_of n s)) = S (es_wait (es s))
  /\ stop_training (epoch_of n s) = (20 <=? S (es_wait (es s)))
  /\ (stop_training (epoch_of n s) = true -> weights (epoch_of n s) = b).
Proof.
  intros Hlow Hn Hb. unfold run_epoch.
  destruct (train_epoch (weights s) (optimizer s) (learning_rate s)) as [w o].
  destruct (reduce_lr_on_epoch_end reduce_lr (val_predictor_rmse w) (learning_rate s) (rlr s))
    as [rlr' lr'].
  unfold early_stopping_on_epoch_end, early_stopping.
  cbn [es_patience restore_best_weights].
  rewrite (Hlow w), Hb.
  replace (0 <? n) with true by (symmetry; apply Nat.ltb_lt, Hn).
  rewrite andb_true_r.
  destruct (20 <=? S (es_wait (es s))); cbn; repeat split; congruence.
Qed.

Lemma plateau_stops (b : W) (remaining : nat) :
  forall (n : nat) (s : FitState W Slots),
    (forall w, (val_predictor_rmse w <? es_best (es s))%float = false) ->
    0 < n -> best_weights (es s) = Some b ->
    es_wait (es s) < 20 -> 20 <= es_wait (es s) + remaining ->
    stop_training (loop remaining n s) = true
    /\ weights (loop remaining n s) = b
    /\ best_epoch (es (loop remaining n s)) = best_epoch (es s).
Proof.
  induction remaining as [|remaining IH]; intros n s Hlow Hn Hb Hwait Hleft; [lia|].
  rewrite fit_loop_S.
  destruct (@run_epoch_plateau b n s Hlow Hn Hb)
    as (Hbest & Hheld & Hepoch & Hcount & Hstop & Hback).
  destruct (stop_training (epoch_of n s)) eqn:Hs.
  - split; [exact Hs|]. split; [apply Hback; reflexivity | exact Hepoch].
  - symmetry in Hstop. apply Nat.leb_gt in Hstop.
    rewrite <- Hepoch. apply IH; try assumption; try lia.
    intros w. rewrite Hbest. apply Hlow.
Qed.

(** The first epoch always leaves its own weights as the snapshot held. *)
Lemma first_epoch_held (w0 : W) (o0 : Slots) :
  stop_training (epoch_of 0 (on_train_begin w0 o0)) = false
  /\ best_weights (es (epoch_of 0 (on_train_begin w0 o0)))
     = Some (fst (train_epoch w0 o0 initial_learning_rate))
  /\ best_epoch (es (epoch_of 0 (on_train_begin w0 o0))) = 0
  /\ es_wait (es (epoch_of 0 (on_train_begin w0 o0))) <= 1
  /\ (es_best (es (epoch_of 0 (on_train_begin w0 o0)))
      = val_predictor_rmse (fst (train_epoch w0 o0 initial_learning_rate))
      \/ ((val_predictor_rmse (fst (train_epoch w0 o0 initial_learning_rate)) <? infinity)%float
          = false
          /\ es_best (es (epoch_of 0 (on_train_begin w0 o0))) = infinity)).
Proof.
  unfold run_epoch, on_train_begin.
  cbn [weights optimizer learning_rate es rlr mc history snapshots].
  destruct (train_epoch w0 o0 initial_learning_rate) as [w o]. cbn [fst].
  destruct (reduce_lr_on_epoch_end _ _ _ _) as [rlr' lr'].
  unfold early_stopping_on_epoch_end, early_stopping.
  cbn [es_patience restore_best_weights es_best es_wait best_weights best_epoch].
  destruct (val_predictor_rmse w <? infinity)%float eqn:Himp; cbn.
  - repeat split; try reflexivity; try lia. now left.
  - repeat split; try reflexivity; try lia. now right.
Qed.


End FitFacts.

(** The sample run: the error is best (3) at epoch 2, twenty epochs pass
    without improvement, training stops at epoch 22 and the model is left
    with the weights of epoch 2, not those of epoch 22. *)
Example sample_fit_stops_early :
  (stop_training sample_fit, best_epoch (es sample_fit), stopped_epoch (es sample_fit),
   length (history sample_fit), weights sample_fit, nth_error (snapshots sample_fit) 22)
  = (true, 2, 22, 23, 3, Some 23).
Proof. vm_compute. reflexivity. Qed.



(** * Further properties of the notebook's code *)

(** ** Fingerprints, row by row *)

Lemma Ok_injective {A : Type} (a b : A) : Ok a = Ok b -> a = b.
Proof. intros H. injection H as H. exact H. Qed.

Lemma comprehension_app {A B : Type} (f : A -> result B) (xs ys : list A) :
  comprehension f (xs ++ ys) =
  (a <- comprehension f xs ;; b <- comprehension f ys ;; Ok (a ++ b)).
Proof.
  induction xs as [|x xs IH]; cbn [app comprehension bind].
  - destruct (comprehension f ys); reflexivity.
  - destruct (f x) as [y|e]; cbn [bind]; [|reflexivity].
    rewrite IH. destruct (comprehension f xs) as [a|e]; cbn [bind]; [|reflexivity].
    destruct (comprehension f ys) as [b|e]; reflexivity.
Qed.

Lemma Forall2_nth_error_l {A B : Type} (P : A -> B -> Prop) (xs : list A) (ys : list B) :
  Forall2 P xs ys ->
  forall i x, nth_error xs i = Some x -> exists y, nth_error ys i = Some y /\ P x y.
Proof.
  induction 1 as [|x0 y0 xs ys H0 _ IH]; intros i x Hi.
  - destruct i; discriminate.
  - destruct i as [|i]; cbn in *.
    + injection Hi as <-. eauto.
    + apply IH, Hi.
Qed.

Section FingerprintBatches.

Context {rdkit : RDKit}.

Lemma convert_all_parse (smiles_array : list string) (fps : list (list Z)) :
  convert_smiles_to_fingerprints smiles_array = Ok fps ->
  Forall (fun s => MolFromSmiles s <> None) smiles_array.
Proof.
  intros H. apply convert_layout in H.
  induction H as [|s fp ss fps' (m & Hm & _) _ IH]; constructor; [congruence | exact IH].
Qed.

Lemma convert_rows (smiles_array : list string) (fps : list (list Z)) :
  convert_smiles_to_fingerprints smiles_array = Ok fps ->
  length fps = length smiles_array
  /\ forall i s, nth_error smiles_array i = Some s ->
       exists fp, nth_error fps i = Some fp
                  /\ smiles_to_fp s default_radius default_n_bits = Ok fp
                  /\ length fp = 2167.
Proof.
  intros H. apply comprehension_ok_Forall2 in H. split.
  - symmetry. eapply Forall2_length, H.
  - intros i s Hi.
    destruct (Forall2_nth_error_l H i Hi) as (fp & Hfp & Hs).
    exists fp. split; [exact Hfp|]. split; [exact Hs|].
    rewrite (smiles_to_fp_length _ _ _ Hs). reflexivity.
Qed.

Lemma convert_rows_of_width (smiles_array : list string) (fps : list (list Z)) :
  convert_smiles_to_fingerprints smiles_array = Ok fps ->
  rows_of_width 2167 (as_tensor fps).
Proof.
  intros H. unfold rows_of_width, as_tensor. rewrite Forall_map.
  apply Forall_forall. intros fp Hin. rewrite length_map.
  destruct (In_nth_error _ _ Hin) as [i Hi].
  destruct (convert_rows _ H) as [Hlen Hrow].
  destruct (nth_error smiles_array i) as [s|] eqn:Hs.
  - destruct (Hrow i s Hs) as (fp' & Hfp' & _ & Hw). congruence.
  - apply nth_error_None in Hs. rewrite <- Hlen in Hs.
    apply nth_error_None in Hs. congruence.
Qed.

(** A fingerprint is a vector of bits: every entry [smiles_to_fp] returns is
    0 or 1. *)
Theorem fingerprint_entries_binary (smiles : string) (radius n_bits : nat) (fp : list Z) :
  smiles_to_fp smiles radius n_bits = Ok fp ->
  Forall (fun b => b = 0%Z \/ b = 1%Z) fp.
Proof.
  intros H. destruct (smiles_to_fp_ok_shape _ _ _ H) as (m & _ & ->).
  apply Forall_app. split; unfold ConvertToNumpyArray; rewrite Forall_map;
    apply Forall_forall; intros i _; cbn [GetBit];
    match goal with |- context [if ?b then _ else _] => destruct b end; auto.
Qed.

(** The batch conversion succeeds exactly when every descriptor of the batch
    parses. *)
Theorem convert_succeeds_iff_all_parse (smiles_array : list string) :
  (exists fps, convert_smiles_to_fingerprints smiles_array = Ok fps)
  <-> Forall (fun s => MolFromSmiles s <> None) smiles_array.
Proof.
  split.
  - intros [fps H]. eapply convert_all_parse, H.
  - apply convert_total.
Qed.

(** The batch conversion keeps count and order: fingerprint [i] of the result
    is the fingerprint [smiles_to_fp] gives descriptor [i] on its own, and it
    is 2167 entries long; the result is a rectangular array. *)
Theorem convert_keeps_order (smiles_array : list string) (fps : list (list Z)) :
  convert_smiles_to_fingerprints smiles_array = Ok fps ->
  length fps = length smiles_array
  /\ forall i s, nth_error smiles_array i = Some s ->
       exists fp, nth_error fps i = Some fp
                  /\ smiles_to_fp s default_radius default_n_bits = Ok fp
                  /\ length fp = 2167.
Proof. apply convert_rows. Qed.

(** Converting a batch in two parts and joining the results is converting the
    whole batch: same fingerprints on success, and a failure in either part
    fails the whole. *)
Theorem convert_concatenation (first second : list string) :
  convert_smiles_to_fingerprints (first ++ second) =
  (a <- convert_smiles_to_fingerprints first ;;
   b <- convert_smiles_to_fingerprints second ;;
   Ok (a ++ b)).
Proof. apply comprehension_app. Qed.

Lemma predict_fingerprints (m : Model) (theta : Weights) (smiles_array : list string)
    (fps : list (list Z)) :
  input_dim m = 2167 ->
  smiles_array <> [] ->
  convert_smiles_to_fingerprints smiles_array = Ok fps ->
  predict m theta (as_tensor fps)
  = Ok (map (infer_row theta 0 (layers m)) (as_tensor fps)).
Proof.
  intros Hd Hne H.
  apply predict_rows; [|rewrite Hd; eapply convert_rows_of_width, H].
  intros E. apply (f_equal (@length _)) in E. unfold as_tensor in E.
  rewrite length_map, (proj1 (convert_rows _ H)) in E.
  destruct smiles_array; [congruence | discriminate].
Qed.

(** Fingerprints fit the encoder: whatever the weights, the features of a
    non-empty batch of descriptors that converts are extracted without a
    shape error, one latent vector of 2167 entries per descriptor. *)
Theorem fingerprints_feed_encoder (theta : Weights) (smiles_array : list string)
    (fps : list (list Z)) :
  smiles_array <> [] ->
  convert_smiles_to_fingerprints smiles_array = Ok fps ->
  exists latents,
    predict encoder theta (as_tensor fps) = Ok latents
    /\ length latents = length smiles_array
    /\ rows_of_width 2167 latents.
Proof.
  intros Hne H.
  exists (map (infer_row theta 0 (layers encoder)) (as_tensor fps)).
  split; [|split].
  - apply (predict_fingerprints encoder theta eq_refl Hne H).
  - unfold as_tensor. rewrite !length_map. exact (proj1 (convert_rows _ H)).
  - pose proof (convert_rows_of_width _ H) as Hw.
    revert Hw. unfold rows_of_width. rewrite Forall_map. apply Forall_impl.
    intros x Hx. exact (infer_row_width theta encoder x Hx).
Qed.

End FingerprintBatches.

Lemma fingerprint_entries_binary_witness :
  exists fp, smiles_to_fp (rdkit := sample_rdkit) "CCO" 2 16 = Ok fp
             /\ Forall (fun b => b = 0%Z \/ b = 1%Z) fp.
Proof.
  eexists. split; [reflexivity|].
  apply (@fingerprint_entries_binary sample_rdkit "CCO"%string 2 16). reflexivity.
Defined.

Lemma convert_keeps_order_witness :
  exists fps,
    convert_smiles_to_fingerprints (rdkit := sample_rdkit) ["CCO"; "c1ccccc1"]%string
    = Ok fps
    /\ length fps = 2.
Proof.
  destruct (@convert_total sample_rdkit ["CCO"; "c1ccccc1"]%string) as [fps H].
  { repeat constructor; discriminate. }
  exists fps. split; [exact H|].
  exact (proj1 (@convert_keeps_order sample_rdkit _ fps H)).
Defined.

Lemma fingerprints_feed_encoder_witness :
  exists fps latents,
    convert_smiles_to_fingerprints (rdkit := sample_rdkit) ["CCO"; "c1ccccc1"]%string
    = Ok fps
    /\ predict encoder zero_weights (as_tensor fps) = Ok latents
    /\ length latents = 2
    /\ rows_of_width 2167 latents.
Proof.
  destruct (@convert_total sample_rdkit ["CCO"; "c1ccccc1"]%string) as [fps H].
  { repeat constructor; discriminate. }
  destruct (@fingerprints_feed_encoder sample_rdkit zero_weights
              ["CCO"; "c1ccccc1"]%string fps) as (latents & Hp & Hl & Hw);
    [discriminate | exact H |].
  exists fps, latents. repeat split; assumption.
Defined.

(** ** Shapes in and out of the models *)

Lemma call_ok_inv (mode : Mode) (m : Model) (theta : Weights)
    (batch out : list (list R)) :
  call mode m theta batch = Ok out ->
  rows_of_width (input_dim m) batch /\ out = call_layers mode theta 0 (layers m) batch.
Proof.
  unfold call. destruct (forallb _ batch) eqn:E; [|discriminate].
  intros H. injection H as <-. split; [apply rows_of_width_forallb, E | reflexivity].
Qed.

(** The encoder's output width does not follow [input_dim]: built for rows of
    any width [d], it still returns rows of 2167 entries. *)
Theorem encoder_width_fixed_for_any_input_dim (d : nat) (theta : Weights) (x : list R) :
  length x = d ->
  exists y, predict (create_encoder d) theta [x] = Ok [y] /\ length y = 2167.
Proof.
  intros Hx. exists (infer_row theta 0 (layers (create_encoder d)) x). split.
  - rewrite predict_rows; [reflexivity | discriminate |].
    constructor; [exact Hx | constructor].
  - rewrite (infer_row_width theta (create_encoder d) x Hx).
    apply create_encoder_output_dim.
Qed.

Lemma encoder_width_fixed_for_any_input_dim_witness :
  exists y, predict (create_encoder 3) zero_weights [[1%R; 2%R; 3%R]] = Ok [y]
            /\ length y = 2167.
Proof.
  apply (@encoder_width_fixed_for_any_input_dim 3 zero_weights [1%R; 2%R; 3%R]).
  reflexivity.
Defined.

(** What the combined model returns when it returns: its input rows were 2167
    wide, and for each of them there is one reconstruction of 2167 entries
    and one prediction that is a single number. *)
Theorem combined_model_output_shapes (mode : Mode) (w : CombinedWeights)
    (inputs decoded predicted : list (list R)) :
  call_combined mode model w inputs = Ok (decoded, predicted) ->
  rows_of_width 2167 inputs
  /\ length decoded = length inputs /\ rows_of_width 2167 decoded
  /\ length predicted = length inputs /\ rows_of_width 1 predicted.
Proof.
  unfold call_combined. destruct (forallb _ inputs) eqn:Hin; [|discriminate].
  apply rows_of_width_forallb in Hin. intros H.
  bind_ok H encoded Henc. bind_ok H dec Hdec. bind_ok H prd Hpred.
  injection H as <- <-.
  apply call_ok_inv in Henc, Hdec, Hpred.
  destruct Henc as [_ ->], Hdec as [Hw ->], Hpred as [_ ->].
  split; [exact Hin|]. split; [now rewrite !call_layers_rows|].
  split; [exact (call_layers_width mode (decoder_weights w)
                   (layers (decoder_part model)) 0 Hw)|].
  split; [now rewrite !call_layers_rows|].
  exact (call_layers_width mode (predictor_weights w)
           (layers (predictor_part model)) 0 Hw).
Qed.

Lemma combined_model_output_shapes_witness :
  exists decoded predicted,
    call_combined Inference model zero_combined_weights [zero_fingerprint]
    = Ok (decoded, predicted)
    /\ length predicted = 1 /\ rows_of_width 1 predicted.
Proof.
  set (encoded := call_layers Inference zero_weights 0 (layers encoder) [zero_fingerprint]).
  assert (Hin : rows_of_width 2167 [zero_fingerprint])
    by (constructor; [apply repeat_length | constructor]).
  assert (Henc : rows_of_width 2167 encoded)
    by exact (call_layers_width Inference zero_weights (layers encoder) 0 Hin).
  assert (Hrun : call_combined Inference model zero_combined_weights [zero_fingerprint]
                 = Ok (call_layers Inference zero_weights 0
                         (layers (decoder_part model)) encoded,
                       call_layers Inference zero_weights 0
                         (layers (predictor_part model)) encoded)).
  { unfold call_combined.
    replace (forallb _ [zero_fingerprint]) with true
      by (symmetry; apply rows_of_width_forallb; exact Hin).
    change (encoder_part model) with encoder.
    cbn [encoder_weights decoder_weights predictor_weights zero_combined_weights].
    rewrite (call_ok Inference encoder zero_weights Hin). cbn [bind]. fold encoded.
    rewrite (call_ok Inference (decoder_part model) zero_weights Henc). cbn [bind].
    rewrite (call_ok Inference (predictor_part model) zero_weights Henc). reflexivity. }
  destruct (combined_model_output_shapes _ _ _ Hrun) as (_ & _ & _ & Hl & Hw).
  eexists _, _. split; [exact Hrun|]. split; [exact Hl | exact Hw].
Defined.

(** ** Scores *)

Lemma SF64sqrt_not_negative (x : spec_float) :
  SFltb (SF64sqrt x) (S754_zero false) = false.
Proof.
  unfold SF64sqrt, SFsqrt.
  destruct x as [s|s| |s m e]; try destruct s; try reflexivity.
  destruct (SFsqrt_core_binary prec emax (Z.pos m) e) as [[mz ez] lz].
  unfold binary_round_aux.
  destruct (shr_fexp prec emax mz ez lz) as [mrs' e'].
  destruct (shr_fexp prec emax _ e' loc_Exact) as [mrs'' e''].
  destruct (shr_m mrs''); try reflexivity.
  destruct (e'' <=? emax - prec)%Z; reflexivity.
Qed.

Section Scores.

Context {estimators : Estimators}.

(** A score [rmse] returns is never below zero (it is a square root: zero,
    positive, infinite or NaN), and [rmse] fails exactly as
    [mean_squared_error] does. *)
Theorem rmse_never_negative (x1 x2 : list float) :
  (forall r, rmse x1 x2 = Ok r -> (r <? 0)%float = false)
  /\ (forall e, rmse x1 x2 = Raise e <-> mean_squared_error x1 x2 = Raise e).
Proof.
  unfold rmse. destruct (mean_squared_error x1 x2) as [mse|e0]; cbn [bind].
  - split.
    + intros r H. injection H as <-.
      rewrite ltb_spec, sqrt_spec. apply SF64sqrt_not_negative.
    + intros e. split; discriminate.
  - split; [discriminate|]. intros e. reflexivity.
Qed.

End Scores.

Lemma rmse_never_negative_witness :
  exists r, rmse (estimators := sample_estimators) [1.5; 2.5]%float [0.5; 1.5]%float = Ok r
            /\ (r <? 0)%float = false.
Proof.
  eexists. split; [reflexivity|].
  apply (proj1 (@rmse_never_negative sample_estimators [1.5; 2.5]%float [0.5; 1.5]%float)).
  reflexivity.
Defined.

(** ** Runs of the notebook that complete *)

Section NotebookRuns.

Context {rdkit : RDKit} {pandas : Pandas} {estimators : Estimators}
        {optimiser : Optimiser}.

Lemma load_and_preprocess_data_ok_inv (file : string) (fps : list (list Z)) :
  load_and_preprocess_data file = Ok fps ->
  exists smiles, read_smiles file = Ok smiles
                 /\ convert_smiles_to_fingerprints smiles = Ok fps.
Proof.
  unfold load_and_preprocess_data. intros H.
  bind_ok H smiles Hs. bind_ok H fps' Hc. injection H as <-. eauto.
Qed.

(** Everything a completed run went through, cell by cell. *)
Lemma notebook_ok_inv (r : Results) :
  notebook = Ok r ->
  exists pfps py tfps ty xs xfps feats x x_val y y_val lr xgb lr_val xgb_val best,
    load_and_preprocess_data "pretrain_features.csv.zip" = Ok pfps
    /\ read_labels "pretrain_labels.csv.zip" = Ok py
    /\ load_and_preprocess_data "train_features.csv.zip" = Ok tfps
    /\ read_labels "train_labels.csv.zip" = Ok ty
    /\ read_smiles "test_features.csv.zip" = Ok xs
    /\ convert_smiles_to_fingerprints xs = Ok xfps
    /\ predict encoder (encoder_weights (trained_weights pfps py)) (as_tensor tfps)
       = Ok feats
    /\ train_test_split feats ty 0.1%float 42 = Ok (x, x_val, y, y_val)
    /\ LinearRegression_fit x y = Ok lr
    /\ XGBRegressor_fit "gpu_hist" x y = Ok xgb
    /\ regressor_predict lr x_val = Ok lr_val
    /\ rmse y_val lr_val = Ok (lr_rmse r)
    /\ regressor_predict xgb x_val = Ok xgb_val
    /\ rmse y_val xgb_val = Ok (xgb_rmse r)
    /\ (best, printed r) = select_best_model lr xgb (lr_rmse r) (xgb_rmse r)
    /\ predict_test encoder (encoder_weights (trained_weights pfps py)) best xfps
       = Ok (predictions r).
Proof.
  unfold notebook. intros H.
  bind_ok H pfps Hpx. bind_ok H py Hpy. bind_ok H tfps Htx. bind_ok H ty Hty.
  bind_ok H xs Htest. bind_ok H xfps Hfp. bind_ok H feats Henc.
  bind_ok H parts Hparts. destruct parts as [[[x x_val] y] y_val].
  bind_ok H lr Hlr. bind_ok H xgb Hxgb.
  bind_ok H lr_val Hlrv. bind_ok H lr_score Hlrs.
  bind_ok H xgb_val Hxgbv. bind_ok H xgb_score Hxgbs.
  destruct (select_best_model lr xgb lr_score xgb_score) as [best line] eqn:Hsel.
  bind_ok H preds Hp. injection H as <-. cbn [lr_rmse xgb_rmse printed predictions].
  exists pfps, py, tfps, ty, xs, xfps, feats, x, x_val, y, y_val, lr, xgb, lr_val,
         xgb_val, best.
  repeat (split; [first [reflexivity | assumption]|]).
  split; [symmetry; exact Hsel | exact Hp].
Qed.

(** A run that completes read all three descriptor files, and every
    descriptor in them parsed: one malformed row in the pretraining, the
    training or the test file, and there is no result at all. *)
Theorem notebook_completes_only_on_clean_data (r : Results) :
  notebook = Ok r ->
  exists pretrain train test,
    read_smiles "pretrain_features.csv.zip" = Ok pretrain
    /\ read_smiles "train_features.csv.zip" = Ok train
    /\ read_smiles "test_features.csv.zip" = Ok test
    /\ Forall (fun s => MolFromSmiles s <> None) (pretrain ++ train ++ test).
Proof.
  intros H.
  destruct (notebook_ok_inv H)
    as (pfps & py & tfps & ty & xs & xfps & feats & x & x_val & y & y_val & lr & xgb
        & lr_val & xgb_val & best & Hp & _ & Ht & _ & Hx & Hxc & _).
  destruct (load_and_preprocess_data_ok_inv _ Hp) as (ps & Hps & Hpc).
  destruct (load_and_preprocess_data_ok_inv _ Ht) as (ts & Hts & Htc).
  exists ps, ts, xs. repeat (split; [assumption|]).
  rewrite !Forall_app. repeat split; eapply convert_all_parse; eassumption.
Qed.

(** A run that completes announces the model with the lower reported score:
    the linear model when its RMSE is strictly lower, the XGBoost model
    otherwise, and then (the scores being numbers) the XGBoost RMSE is at most
    the linear one. *)
Theorem notebook_announces_lower_score (r : Results) :
  notebook = Ok r ->
  is_nan (lr_rmse r) = false -> is_nan (xgb_rmse r) = false ->
  (printed r = "Linear Regression model selected"%string
   /\ (lr_rmse r <? xgb_rmse r)%float = true)
  \/ (printed r = "XGBoost model selected"%string
      /\ (xgb_rmse r <=? lr_rmse r)%float = true).
Proof.
  intros H Hlr Hxgb. destruct (notebook_selection H) as [[Hlt Hp]|[Hlt Hp]].
  - left. split; assumption.
  - right. split; [exact Hp|]. apply float_not_ltb_leb; assumption.
Qed.

(** The predictions of a run that completes come from the model that run
    itself fitted, scored and announced: both candidates are fitted on the
    fit part of the split of the encoded training set, each is scored on the
    held-out part, and the predictions are those of the linear model when its
    score is strictly lower (and it is the one announced), those of the
    XGBoost model otherwise, on the features the trained encoder extracts from
    the test fingerprints, one feature vector per test descriptor. *)
Theorem notebook_predictions_from_announced_model (r : Results) :
  notebook = Ok r ->
  exists pfps py tfps ty test xfps train_feats x x_val y y_val lr xgb lr_val xgb_val feats,
    load_and_preprocess_data "pretrain_features.csv.zip" = Ok pfps
    /\ read_labels "pretrain_labels.csv.zip" = Ok py
    /\ load_and_preprocess_data "train_features.csv.zip" = Ok tfps
    /\ read_labels "train_labels.csv.zip" = Ok ty
    /\ read_smiles "test_features.csv.zip" = Ok test
    /\ convert_smiles_to_fingerprints test = Ok xfps
    /\ predict encoder (encoder_weights (trained_weights pfps py)) (as_tensor tfps)
       = Ok train_feats
    /\ train_test_split train_feats ty 0.1%float 42 = Ok (x, x_val, y, y_val)
    /\ LinearRegression_fit x y = Ok lr
    /\ XGBRegressor_fit "gpu_hist" x y = Ok xgb
    /\ regressor_predict lr x_val = Ok lr_val
    /\ rmse y_val lr_val = Ok (lr_rmse r)
    /\ regressor_predict xgb x_val = Ok xgb_val
    /\ rmse y_val xgb_val = Ok (xgb_rmse r)
    /\ predict encoder (encoder_weights (trained_weights pfps py)) (as_tensor xfps)
       = Ok feats
    /\ length feats = length test
    /\ ((printed r = "Linear Regression model selected"%string
         /\ (lr_rmse r <? xgb_rmse r)%float = true
         /\ regressor_predict lr feats = Ok (predictions r))
        \/ (printed r = "XGBoost model selected"%string
            /\ (lr_rmse r <? xgb_rmse r)%float = false
            /\ regressor_predict xgb feats = Ok (predictions r))).
Proof.
  intros H.
  destruct (notebook_ok_inv H)
    as (pfps & py & tfps & ty & xs & xfps & feats & x & x_val & y & y_val & lr & xgb
        & lr_val & xgb_val & best & Hp & Hpy & Ht & Hty & Hx & Hxc & Henc & Hsplit
        & Hlr & Hxgb & Hlrv & Hlrs & Hxgbv & Hxgbs & Hsel & Hpred).
  unfold predict_test in Hpred.
  bind_ok Hpred tfeats Htf. bind_ok Hpred preds Hps. injection Hpred as Hpred.
  subst preds.
  exists pfps, py, tfps, ty, xs, xfps, feats, x, x_val, y, y_val, lr, xgb, lr_val,
         xgb_val, tfeats.
  repeat (split; [assumption|]). split.
  - assert (Hne : xs <> []).
    { intros ->. cbn in Hxc. injection Hxc as <-. cbn in Htf. discriminate. }
    rewrite (predict_fingerprints encoder _ eq_refl Hne Hxc) in Htf.
    apply Ok_injective in Htf. rewrite <- Htf.
    unfold as_tensor. rewrite !length_map.
    exact (proj1 (convert_rows _ Hxc)).
  - unfold select_best_model in Hsel.
    destruct (lr_rmse r <? xgb_rmse r)%float; injection Hsel as -> ->;
      [left | right]; (split; [reflexivity|]); (split; [reflexivity | exact Hps]).
Qed.

End NotebookRuns.

(** A run on files in which every descriptor parses: both candidates score
    0.5, a tie. *)
Lemma clean_notebook_completes :
  exists r,
    notebook (rdkit := sample_rdkit) (pandas := clean_pandas)
             (estimators := sample_estimators) (optimiser := sample_optimiser) = Ok r
    /\ lr_rmse r = 0.5%float /\ xgb_rmse r = 0.5%float.
Proof.
  destruct (@convert_total sample_rdkit ["CCO"; "c1ccccc1"]%string) as [fps Hfps].
  { repeat constructor; discriminate. }
  assert (Hne : ["CCO"; "c1ccccc1"]%string <> []) by discriminate.
  unfold notebook, load_and_preprocess_data.
  cbn [read_smiles read_labels clean_pandas bind].
  rewrite Hfps. cbn [bind].
  rewrite (predict_fingerprints encoder _ eq_refl Hne Hfps). cbn [bind].
  cbn [train_test_split LinearRegression_fit XGBRegressor_fit sample_estimators bind
       regressor_predict].
  unfold rmse. cbn [mean_squared_error sample_estimators bind].
  change (PrimFloat.sqrt 0.25) with 0.5%float.
  unfold select_best_model. change (0.5 <? 0.5)%float with false. cbv iota.
  unfold predict_test.
  rewrite (predict_fingerprints encoder _ eq_refl Hne Hfps).
  cbn [bind regressor_predict].
  eexists. split; [reflexivity|]. split; reflexivity.
Qed.

Lemma notebook_completes_only_on_clean_data_witness :
  exists pretrain train test,
    read_smiles (Pandas := clean_pandas) "pretrain_features.csv.zip" = Ok pretrain
    /\ read_smiles (Pandas := clean_pandas) "train_features.csv.zip" = Ok train
    /\ read_smiles (Pandas := clean_pandas) "test_features.csv.zip" = Ok test
    /\ Forall (fun s => MolFromSmiles (RDKit := sample_rdkit) s <> None)
              (pretrain ++ train ++ test).
Proof.
  destruct clean_notebook_completes as (r & Hrun & _).
  exact (@notebook_completes_only_on_clean_data sample_rdkit clean_pandas
           sample_estimators sample_optimiser r Hrun).
Defined.

Lemma notebook_announces_lower_score_witness :
  exists r,
    notebook (rdkit := sample_rdkit) (pandas := clean_pandas)
             (estimators := sample_estimators) (optimiser := sample_optimiser) = Ok r
    /\ ((printed r = "Linear Regression model selected"%string
         /\ (lr_rmse r <? xgb_rmse r)%float = true)
        \/ (printed r = "XGBoost model selected"%string
            /\ (xgb_rmse r <=? lr_rmse r)%float = true)).
Proof.
  destruct clean_notebook_completes as (r & Hrun & Hlr & Hxgb).
  exists r. split; [exact Hrun|].
  apply (@notebook_announces_lower_score sample_rdkit clean_pandas
           sample_estimators sample_optimiser r Hrun).
  - rewrite Hlr. reflexivity.
  - rewrite Hxgb. reflexivity.
Defined.

Lemma notebook_predictions_from_announced_model_witness :
  exists r xgb feats,
    notebook (rdkit := sample_rdkit) (pandas := clean_pandas)
             (estimators := sample_estimators) (optimiser := sample_optimiser) = Ok r
    /\ printed r = "XGBoost model selected"%string
    /\ length feats = 2
    /\ regressor_predict xgb feats = Ok (predictions r).
Proof.
  destruct clean_notebook_completes as (r & Hrun & Hlrs & Hxgbs).
  destruct (@notebook_predictions_from_announced_model sample_rdkit clean_pandas
              sample_estimators sample_optimiser r Hrun)
    as (pfps & py & tfps & ty & test & xfps & train_feats & x & x_val & y & y_val
        & lr & xgb & lr_val & xgb_val & feats
        & _ & _ & _ & _ & Htest & _ & _ & _ & _ & _ & _ & _ & _ & _ & _ & Hlen & Hsel).
  exists r, xgb, feats. split; [exact Hrun|].
  assert (Hfeats : length feats = 2).
  { rewrite Hlen. cbn in Htest. injection Htest as <-. reflexivity. }
  destruct Hsel as [(_ & Hlt & _)|(Hline & _ & Hpred)].
  - rewrite Hlrs, Hxgbs in Hlt. discriminate.
  - split; [exact Hline|]. split; [exact Hfeats | exact Hpred].
Defined.

(** ** How long training runs, and what the checkpoint holds *)

Section FitRuns.

Variable W : Type.
Variable Slots : Type.
Variable train_epoch : W -> Slots -> float -> W * Slots.
Variable val_predictor_rmse : W -> float.

Local Abbreviation epoch_of := (run_epoch train_epoch val_predictor_rmse).
Local Abbreviation loop := (fit_loop train_epoch val_predictor_rmse).

Lemma run_epoch_counts (n : nat) (s : FitState W Slots) :
  length (history s) = n -> length (snapshots s) = n -> es_wait (es s) <= n ->
  length (history (epoch_of n s)) = S n
  /\ length (snapshots (epoch_of n s)) = S n
  /\ es_wait (es (epoch_of n s)) <= S n
  /\ (stop_training (epoch_of n s) = true ->
      20 <= S n /\ stopped_epoch (es (epoch_of n s)) = n).
Proof.
  intros Hh Hs Hw. unfold run_epoch.
  destruct (train_epoch (weights s) (optimizer s) (learning_rate s)) as [w o].
  destruct (reduce_lr_on_epoch_end _ _ _ _) as [rlr' lr'].
  unfold early_stopping_on_epoch_end, early_stopping.
  cbn [es_patience restore_best_weights].
  destruct (val_predictor_rmse w <? es_best (es s))%float.
  - cbn. rewrite !length_app. cbn. repeat split; try lia; discriminate.
  - destruct ((20 <=? S (es_wait (es s))) && (0 <? n)) eqn:Hstop;
      cbn; rewrite !length_app; cbn; repeat split; try lia; try discriminate.
    apply andb_prop in Hstop. destruct Hstop as [Hp _].
    apply Nat.leb_le in Hp. lia.
Qed.

Lemma fit_loop_counts (remaining : nat) :
  forall (n : nat) (s : FitState W Slots),
    length (history s) = n -> length (snapshots s) = n -> es_wait (es s) <= n ->
    stop_training s = false ->
    n <= length (history (loop remaining n s)) <= n + remaining
    /\ (0 < remaining -> n < length (history (loop remaining n s)))
    /\ length (snapshots (loop remaining n s)) = length (history (loop remaining n s))
    /\ (stop_training (loop remaining n s) = true ->
        20 <= length (history (loop remaining n s))
        /\ stopped_epoch (es (loop remaining n s))
           = length (history (loop remaining n s)) - 1)
    /\ (stop_training (loop remaining n s) = false ->
        length (history (loop remaining n s)) = n + remaining).
Proof.
  induction remaining as [|remaining IH]; intros n s Hh Hs Hw Hstop; cbn [fit_loop].
  - rewrite Hh, Hs, Hstop. repeat split; try lia; discriminate.
  - destruct (run_epoch_counts s Hh Hs Hw) as (Hh' & Hs' & Hw' & Hstopped).
    destruct (stop_training (epoch_of n s)) eqn:E.
    + rewrite Hh', Hs'. destruct (Hstopped eq_refl) as [H20 Hep].
      split; [lia|]. split; [lia|]. split; [reflexivity|].
      split; [|intros Hf; congruence].
      intros _. split; [exact H20 | rewrite Hep; lia].
    + destruct (IH (S n) _ Hh' Hs' Hw' E) as (Hb & _ & Hsn & Hst & Hfull).
      split; [lia|]. split; [lia|]. split; [exact Hsn|].
      split; [exact Hst|].
      intros Hf. rewrite (Hfull Hf). lia.
Qed.

(** [model.fit(epochs=100)] with early stopping at patience 20 trains for at
    least one and at most 100 epochs; when early stopping ends it, at least
    20 epochs have been trained and the last of them is the stopping epoch;
    otherwise all 100 epochs were trained. *)
Theorem fit_epoch_bounds (w0 : W) (o0 : Slots) :
  1 <= length (history (fit train_epoch val_predictor_rmse w0 o0)) <= 100
  /\ length (snapshots (fit train_epoch val_predictor_rmse w0 o0))
     = length (history (fit train_epoch val_predictor_rmse w0 o0))
  /\ (stop_training (fit train_epoch val_predictor_rmse w0 o0) = true ->
      20 <= length (history (fit train_epoch val_predictor_rmse w0 o0))
      /\ stopped_epoch (es (fit train_epoch val_predictor_rmse w0 o0))
         = length (history (fit train_epoch val_predictor_rmse w0 o0)) - 1)
  /\ (stop_training (fit train_epoch val_predictor_rmse w0 o0) = false ->
      length (history (fit train_epoch val_predictor_rmse w0 o0)) = 100).
Proof.
  unfold fit.
  destruct (@fit_loop_counts epochs 0 (on_train_begin w0 o0) eq_refl eq_refl
              (Nat.le_refl 0) eq_refl) as (Hb & Hpos & Hs & Hst & Hfull).
  unfold epochs in *.
  split; [split; [apply Hpos; lia | lia]|].
  split; [exact Hs|]. split; [exact Hst|].
  intros Hf. rewrite (Hfull Hf). reflexivity.
Qed.

Lemma run_epoch_checkpoint (n : nat) (s : FitState W Slots) :
  (mc_best (mc s) = es_best (es s)
   /\ (forall w, saved (mc s) = Some w ->
         best_weights (es s) = Some w /\ In w (snapshots s)
         /\ val_predictor_rmse w = mc_best (mc s))) ->
  mc_best (mc (epoch_of n s)) = es_best (es (epoch_of n s))
  /\ (forall w, saved (mc (epoch_of n s)) = Some w ->
        best_weights (es (epoch_of n s)) = Some w /\ In w (snapshots (epoch_of n s))
        /\ val_predictor_rmse w = mc_best (mc (epoch_of n s)))
  /\ (stop_training (epoch_of n s) = true ->
      best_weights (es (epoch_of n s)) = Some (weights (epoch_of n s))).
Proof.
  intros (Hbest & Hsaved). unfold run_epoch.
  destruct (train_epoch (weights s) (optimizer s) (learning_rate s)) as [w o].
  destruct (reduce_lr_on_epoch_end _ _ _ _) as [rlr' lr'].
  unfold early_stopping_on_epoch_end, early_stopping, model_checkpoint_on_epoch_end,
    model_checkpoint.
  cbn [es_patience restore_best_weights save_best_only].
  rewrite Hbest.
  destruct (val_predictor_rmse w <? es_best (es s))%float eqn:Himp.
  - cbn. split; [reflexivity|]. split; [|discriminate].
    intros w' Hw'. injection Hw' as <-.
    split; [reflexivity|]. split; [apply in_or_app; right; now left | reflexivity].
  - assert (Hkeep : forall w', saved (mc s) = Some w' ->
              match best_weights (es s) with None => Some w | Some b => Some b end
              = Some w'
              /\ In w' (snapshots s ++ [w])
              /\ val_predictor_rmse w' = mc_best (mc s)).
    { intros w' Hw'. destruct (Hsaved w' Hw') as (Hb & Hin & Hv).
      rewrite Hb. split; [reflexivity|]. split; [apply in_or_app; now left | exact Hv]. }
    destruct ((20 <=? S (es_wait (es s))) && (0 <? n)); cbn;
      (split; [exact Hbest|]); (split; [exact Hkeep|]); [|discriminate].
    intros _. destruct (best_weights (es s)); reflexivity.
Qed.

Lemma fit_loop_checkpoint (remaining : nat) :
  forall (n : nat) (s : FitState W Slots),
    (mc_best (mc s) = es_best (es s)
     /\ (forall w, saved (mc s) = Some w ->
           best_weights (es s) = Some w /\ In w (snapshots s)
           /\ val_predictor_rmse w = mc_best (mc s))
     /\ (stop_training s = true -> best_weights (es s) = Some (weights s))) ->
    mc_best (mc (loop remaining n s)) = es_best (es (loop remaining n s))
    /\ (forall w, saved (mc (loop remaining n s)) = Some w ->
          best_weights (es (loop remaining n s)) = Some w
          /\ In w (snapshots (loop remaining n s))
          /\ val_predictor_rmse w = mc_best (mc (loop remaining n s)))
    /\ (stop_training (loop remaining n s) = true ->
        best_weights (es (loop remaining n s)) = Some (weights (loop remaining n s))).
Proof.
  induction remaining as [|remaining IH]; intros n s H; cbn [fit_loop]; [exact H|].
  destruct H as (Hb & Hsv & _).
  pose proof (@run_epoch_checkpoint n s (conj Hb Hsv)) as H'.
  destruct (stop_training (epoch_of n s)) eqn:E; [|apply IH]; rewrite ?E; exact H'.
Qed.

(** The checkpoint follows early stopping: when [fit] returns with a
    checkpoint written, the file holds one of the epochs' snapshots, the very
    one early stopping holds as best, with the best monitored value; and if
    early stopping ended the training, the model is left with exactly the
    weights in the file. *)
Theorem checkpoint_is_what_early_stopping_holds (w0 : W) (o0 : Slots) (w : W) :
  saved (mc (fit train_epoch val_predictor_rmse w0 o0)) = Some w ->
  In w (snapshots (fit train_epoch val_predictor_rmse w0 o0))
  /\ val_predictor_rmse w = es_best (es (fit train_epoch val_predictor_rmse w0 o0))
  /\ best_weights (es (fit train_epoch val_predictor_rmse w0 o0)) = Some w
  /\ (stop_training (fit train_epoch val_predictor_rmse w0 o0) = true ->
      weights (fit train_epoch val_predictor_rmse w0 o0) = w).
Proof.
  intros Hsaved. unfold fit in *.
  destruct (@fit_loop_checkpoint epochs 0 (on_train_begin w0 o0))
    as (Hbest & Hsv & Hstop).
  { cbn. repeat split; discriminate. }
  destruct (Hsv w Hsaved) as (Hb & Hin & Hv).
  split; [exact Hin|]. split; [rewrite Hv; exact Hbest|]. split; [exact Hb|].
  intros Hs. specialize (Hstop Hs). congruence.
Qed.

End FitRuns.

Lemma checkpoint_is_what_early_stopping_holds_witness :
  saved (mc (fit sample_train_epoch sample_val_predictor_rmse 0 tt)) = Some 3
  /\ best_weights (es (fit sample_train_epoch sample_val_predictor_rmse 0 tt)) = Some 3
  /\ (stop_training (fit sample_train_epoch sample_val_predictor_rmse 0 tt) = true ->
      weights (fit sample_train_epoch sample_val_predictor_rmse 0 tt) = 3).
Proof.
  assert (Hsaved : saved (mc (fit sample_train_epoch sample_val_predictor_rmse 0 tt))
                   = Some 3) by (vm_compute; reflexivity).
  destruct (checkpoint_is_what_early_stopping_holds sample_train_epoch
              sample_val_predictor_rmse 0 tt Hsaved) as (_ & _ & Hb & Hw).
  split; [exact Hsaved|]. split; [exact Hb | exact Hw].
Defined.
